(** * Shallow embedding of sverchok's [ui/presets.py]

    The operators of the presets panel are modelled as programs in a small
    state-and-exception monad over a [world]: the file system, the event
    trace of file-system and network calls, the operator reports, the log,
    the clipboard and the host's data (node groups, snippet service). *)

From Stdlib Require Import List String Ascii Bool Arith Lia.
From Stdlib Require Import Sorting.Sorted Sorting.Mergesort Sorting.Permutation.
From Stdlib Require Import Structures.Orders.
Import ListNotations.
Open Scope string_scope.

(** ** Python string helpers (str methods and posixpath) *)

(** [s[0] == c] *)
Definition starts_with_char (c : ascii) (s : string) : bool :=
  match s with
  | EmptyString => false
  | String a _ => Ascii.eqb a c
  end.

(** [s.endswith(suf)]: some suffix of [s] is [suf] *)
Fixpoint ends_with (suf s : string) : bool :=
  String.eqb s suf || match s with
                      | EmptyString => false
                      | String _ s' => ends_with suf s'
                      end.

(** [c in s] *)
Fixpoint has_char (c : ascii) (s : string) : bool :=
  match s with
  | EmptyString => false
  | String a s' => Ascii.eqb a c || has_char c s'
  end.

(** every character of [s] is [c] *)
Fixpoint all_char (c : ascii) (s : string) : bool :=
  match s with
  | EmptyString => true
  | String a s' => Ascii.eqb a c && all_char c s'
  end.

(** [s.rfind(c)], [None] standing for -1 *)
Fixpoint rfind_char (c : ascii) (s : string) : option nat :=
  match s with
  | EmptyString => None
  | String a s' =>
      match rfind_char c s' with
      | Some i => Some (S i)
      | None => if Ascii.eqb a c then Some 0 else None
      end
  end.

(** [s.rstrip(c)] *)
Fixpoint rstrip_char (c : ascii) (s : string) : string :=
  match s with
  | EmptyString => EmptyString
  | String a s' =>
      let r := rstrip_char c s' in
      if String.eqb r EmptyString && Ascii.eqb a c then EmptyString
      else String a r
  end.

(** [s.split(c)] *)
Fixpoint split_on (c : ascii) (s : string) : list string :=
  match s with
  | EmptyString => [EmptyString]
  | String a s' =>
      match split_on c s' with
      | [] => [String a EmptyString]
      | w :: ws => if Ascii.eqb a c then EmptyString :: w :: ws
                   else String a w :: ws
      end
  end.

(** [posixpath.join(a, b)] *)
Definition os_path_join (a b : string) : string :=
  if starts_with_char "/" b then b
  else if String.eqb a EmptyString || ends_with "/" a then a ++ b
  else a ++ "/" ++ b.

(** [posixpath.basename(p)]: [p[p.rfind('/') + 1:]] *)
Fixpoint basename (p : string) : string :=
  match p with
  | EmptyString => EmptyString
  | String c rest =>
      if has_char "/" rest then basename rest
      else if Ascii.eqb c "/" then rest else p
  end.

(** [posixpath.splitext(p)] (genericpath._splitext with sep '/' and
    extsep '.'): the extension starts at the last dot of the last path
    component, unless that component has only dots before it. *)
Definition splitext (p : string) : string * string :=
  let fname_start := match rfind_char "/" p with Some i => S i | None => 0 end in
  match rfind_char "." p with
  | Some d =>
      if Nat.leb fname_start d
         && negb (all_char "." (substring fname_start (d - fname_start) p))
      then (substring 0 d p, substring d (String.length p - d) p)
      else (p, EmptyString)
  | None => (p, EmptyString)
  end.

(** [(p[:i], p[i:])] for [i = p.rfind('/') + 1] *)
Fixpoint split_after_last_slash (p : string) : string * string :=
  match p with
  | EmptyString => (EmptyString, EmptyString)
  | String c rest =>
      if has_char "/" rest then
        let '(h, t) := split_after_last_slash rest in (String c h, t)
      else if Ascii.eqb c "/" then (String c EmptyString, rest)
      else (EmptyString, p)
  end.

(** [posixpath.split(p)] *)
Definition os_path_split (p : string) : string * string :=
  let '(head, tail) := split_after_last_slash p in
  let head := if negb (String.eqb head EmptyString) && negb (all_char "/" head)
              then rstrip_char "/" head else head in
  (head, tail).

(** [name, _ = os.path.splitext(os.path.basename(p))], as [SvPreset] does *)
Definition stem (p : string) : string := fst (splitext (basename p)).

(** [glob.has_magic] *)
Definition has_magic (s : string) : bool :=
  has_char "*" s || has_char "?" s || has_char "[" s.

(** [glob._ishidden] *)
Definition is_hidden (s : string) : bool := starts_with_char "." s.

(** [fnmatch.fnmatch] for patterns made of literal characters, [*] and [?]
    (the module only ever globs the pattern [*.json]). *)
Fixpoint fnmatch (pat s : string) {struct pat} : bool :=
  match pat with
  | EmptyString => String.eqb s EmptyString
  | String c pat' =>
      if Ascii.eqb c "*" then
        (fix star (s : string) : bool :=
           fnmatch pat' s || match s with
                             | EmptyString => false
                             | String _ s' => star s'
                             end) s
      else match s with
           | EmptyString => false
           | String d s' => (Ascii.eqb c "?" || Ascii.eqb c d) && fnmatch pat' s'
           end
  end.

(** Strict UTF-8 validity, as [bytes.decode('utf8')] checks it (no overlong
    forms, no surrogates, nothing above U+10FFFF).  A file's content is a
    byte string, one [ascii] per byte. *)
Definition is_cont (b : nat) : bool := Nat.leb 128 b && Nat.leb b 191.

Fixpoint valid_utf8 (bs : list nat) : bool :=
  match bs with
  | [] => true
  | b :: r =>
      if Nat.leb b 127 then valid_utf8 r
      else if Nat.leb 194 b && Nat.leb b 223 then
        match r with c :: r' => is_cont c && valid_utf8 r' | _ => false end
      else if Nat.leb 224 b && Nat.leb b 239 then
        match r with
        | c1 :: c2 :: r' =>
            (if Nat.eqb b 224 then Nat.leb 160 c1 && Nat.leb c1 191
             else if Nat.eqb b 237 then Nat.leb 128 c1 && Nat.leb c1 159
             else is_cont c1) && is_cont c2 && valid_utf8 r'
        | _ => false
        end
      else if Nat.leb 240 b && Nat.leb b 244 then
        match r with
        | c1 :: c2 :: c3 :: r' =>
            (if Nat.eqb b 240 then Nat.leb 144 c1 && Nat.leb c1 191
             else if Nat.eqb b 244 then Nat.leb 128 c1 && Nat.leb c1 143
             else is_cont c1) && is_cont c2 && is_cont c3 && valid_utf8 r'
        | _ => false
        end
      else false
  end.

Definition bytes_of (s : string) : list nat := map nat_of_ascii (list_ascii_of_string s).

(** [sorted(xs)] on str: code-point order, [String.leb]. *)
Module StrOrder <: TotalLeBool.
Definition t := string.
Definition leb := String.leb.
Theorem leb_total : forall a1 a2, leb a1 a2 = true \/ leb a2 a1 = true.
Proof. exact String.leb_total. Qed.
End StrOrder.

Module StrSort := Sort StrOrder.

Definition py_sorted (xs : list string) : list string := StrSort.sort xs.

(** ** File system

    A file system maps absolute paths (lists of components, the root being
    [[]]) to entries; the list order is the order in which [os.listdir]
    enumerates a directory.  A path string is resolved component by
    component as the kernel does (there are no symbolic links): every
    component but the last must lead through a directory; relative paths are
    taken from the root. *)

Inductive entry : Type :=
| File (data : string)
| Dir.

Definition fsys := list (list string * entry).

Definition key_eqb (k1 k2 : list string) : bool :=
  if list_eq_dec string_dec k1 k2 then true else false.

Fixpoint fs_lookup (k : list string) (fs : fsys) : option entry :=
  match fs with
  | [] => None
  | (k', e) :: fs' => if key_eqb k k' then Some e else fs_lookup k fs'
  end.

Definition fs_exists (fs : fsys) (k : list string) : bool :=
  match k with
  | [] => true
  | _ => match fs_lookup k fs with Some _ => true | None => false end
  end.

Definition fs_is_dir (fs : fsys) (k : list string) : bool :=
  match k with
  | [] => true
  | _ => match fs_lookup k fs with Some Dir => true | _ => false end
  end.

Definition fs_remove (k : list string) (fs : fsys) : fsys :=
  filter (fun kv => negb (key_eqb (fst kv) k)) fs.

Definition fs_set (k : list string) (e : entry) (fs : fsys) : fsys :=
  (k, e) :: fs_remove k fs.

(** [os.listdir]: the last components of the entries whose parent is [k] *)
Definition fs_children (fs : fsys) (k : list string) : list string :=
  flat_map (fun kv => match fst kv with
                      | [] => []
                      | k' => if key_eqb (removelast k') k then [last k' EmptyString] else []
                      end) fs.

Definition norm_step (acc : list string) (comp : string) : list string :=
  if String.eqb comp EmptyString || String.eqb comp "." then acc
  else if String.eqb comp ".." then removelast acc
  else (acc ++ [comp])%list.

(** The path as [os.path.normpath] would normalise it, used where
    [os.makedirs] creates the missing directories one after the other. *)
Definition path_key (p : string) : list string :=
  fold_left norm_step (split_on "/" p) [].

Fixpoint walk (f : fsys) (cur : list string) (cs : list string) : option (list string) :=
  match cs with
  | [] => Some cur
  | c :: cs' => if fs_is_dir f cur then walk f (norm_step cur c) cs' else None
  end.

(** Path resolution: [None] when a component before the last is missing or
    is not a directory (ENOENT, ENOTDIR). *)
Definition resolve (f : fsys) (p : string) : option (list string) :=
  walk f [] (split_on "/" p).

(** [k1] is a prefix of [k2] *)
Fixpoint key_prefix (k1 k2 : list string) : bool :=
  match k1, k2 with
  | [], _ => true
  | c1 :: k1', c2 :: k2' => String.eqb c1 c2 && key_prefix k1' k2'
  | _ :: _, [] => false
  end.


(** ** Python values, results and the world *)

Inductive exn : Type :=
| FileNotFoundError (path : string)
| FileExistsError (path : string)
| NotADirectoryError (path : string)
| IsADirectoryError (path : string)
| OSError (path : string)
| UnicodeDecodeError
| KeyError (key : string)
| NameError (name : string)
| TypeError
| Exception (msg : string)
| ConnectionError (msg : string)
(** a behaviour of the Python library that this development does not model *)
| Unmodelled (what : string).

(** What an operator's [execute] returns: [{'FINISHED'}], [{'CANCELLED'}],
    or [None] when the body falls off its end. *)
Inductive op_result : Type := FINISHED | CANCELLED | NONE.

(** A parsed JSON document. *)
Set Warnings "-register-all".
Inductive json : Type :=
| JNull
| JBool (b : bool)
| JNum (n : nat)
| JStr (s : string)
| JArr (xs : list json)
| JObj (kvs : list (string * json)).

(** A node of a Blender node tree, with its selection flag. *)
Record node : Type := mk_node { node_name : string; select : bool }.

Inductive event : Type :=
| FsExists (p : string)
| FsMakedirs (p : string)
| FsOpen (p mode : string)
| FsRename (src dst : string)
| FsRemove (p : string)
| FsListdir (p : string)
| NetUpload (filename description : string)
| NetFetch (gist_id : string).

Record world : Type := mk_world {
  fs : fsys;
  (** file-system and network calls, oldest first *)
  events : list event;
  (** [self.report(level, msg)], oldest first *)
  reports : list (string * string);
  (** [sverchok.utils.logging], oldest first *)
  logs : list (string * string);
  clipboard : string;
  (** the local registry of uploaded gists written by
      [sv_gist_tools.write_or_append_datafiles] *)
  gist_registry : list (string * string);
  (** [bpy.data.node_groups] *)
  node_groups : list (string * list node);
  (** the per-user DATAFILES directory of the host *)
  datafiles_dir : string;
  (** the remote service: the URL of an upload, or the error it raises *)
  gist_upload : string -> string -> string -> exn + string;
  (** the remote service: the document stored under a gist id *)
  gist_content : string -> json;
  (** [create_dict_of_tree(ng, selected=True)] of [sv_IO_panel_tools] *)
  create_dict_of_tree_selected : list node -> json;
  (** [json.dumps(d, sort_keys=True, indent=2)] *)
  json_dumps_sorted : json -> string
}.

Definition set_fs (f : fsys) (w : world) : world :=
  mk_world f (events w) (reports w) (logs w) (clipboard w) (gist_registry w)
    (node_groups w) (datafiles_dir w) (gist_upload w) (gist_content w)
    (create_dict_of_tree_selected w) (json_dumps_sorted w).

Definition add_event (ev : event) (w : world) : world :=
  mk_world (fs w) ((events w ++ [ev])%list) (reports w) (logs w) (clipboard w) (gist_registry w)
    (node_groups w) (datafiles_dir w) (gist_upload w) (gist_content w)
    (create_dict_of_tree_selected w) (json_dumps_sorted w).

Definition add_report (r : string * string) (w : world) : world :=
  mk_world (fs w) (events w) ((reports w ++ [r])%list) (logs w) (clipboard w) (gist_registry w)
    (node_groups w) (datafiles_dir w) (gist_upload w) (gist_content w)
    (create_dict_of_tree_selected w) (json_dumps_sorted w).

Definition add_log (l : string * string) (w : world) : world :=
  mk_world (fs w) (events w) (reports w) ((logs w ++ [l])%list) (clipboard w) (gist_registry w)
    (node_groups w) (datafiles_dir w) (gist_upload w) (gist_content w)
    (create_dict_of_tree_selected w) (json_dumps_sorted w).

Definition set_clipboard_w (c : string) (w : world) : world :=
  mk_world (fs w) (events w) (reports w) (logs w) c (gist_registry w)
    (node_groups w) (datafiles_dir w) (gist_upload w) (gist_content w)
    (create_dict_of_tree_selected w) (json_dumps_sorted w).

Definition add_registry (r : string * string) (w : world) : world :=
  mk_world (fs w) (events w) (reports w) (logs w) (clipboard w) ((gist_registry w ++ [r])%list)
    (node_groups w) (datafiles_dir w) (gist_upload w) (gist_content w)
    (create_dict_of_tree_selected w) (json_dumps_sorted w).

(** ** The state-and-exception monad

    [Val a]: the statement or expression completed with value [a];
    [Ret r]: a [return r] statement was executed; [Exc e]: [e] was raised. *)

Inductive res (A : Type) : Type :=
| Val (a : A)
| Ret (r : op_result)
| Exc (e : exn).
Arguments Val {A} a.
Arguments Ret {A} r.
Arguments Exc {A} e.

Definition ST (S A : Type) : Type := S -> res A * S.

Definition ret {S A} (a : A) : ST S A := fun s => (Val a, s).

Definition bind {S A B} (m : ST S A) (k : A -> ST S B) : ST S B :=
  fun s => match m s with
           | (Val a, s') => k a s'
           | (Ret r, s') => (Ret r, s')
           | (Exc e, s') => (Exc e, s')
           end.

Notation "x <- m ;; k" := (bind m (fun x => k))
  (at level 61, m at next level, right associativity).
Notation "m ;; k" := (bind m (fun _ => k))
  (at level 61, right associativity).

(** [return r] *)
Definition return_ {S A} (r : op_result) : ST S A := fun s => (Ret r, s).

(** [raise e] *)
Definition raise {S A} (e : exn) : ST S A := fun s => (Exc e, s).

(** Calling a function: its [return] becomes its value. *)
Definition call {S} (body : ST S unit) : ST S op_result :=
  fun s => match body s with
           | (Val _, s') => (Val NONE, s')
           | (Ret r, s') => (Val r, s')
           | (Exc e, s') => (Exc e, s')
           end.

(** [try: b / except Exception as err: h(err) / finally: f]: the handler
    runs on an exception of the body; the [finally] block always runs, and a
    [return] (or a raise) in it replaces the pending outcome. *)
Definition try_except_finally {S A} (b : ST S A) (h : exn -> ST S A) (f : ST S unit)
  : ST S A :=
  fun s =>
    let '(r1, s1) := b s in
    let '(r2, s2) := match r1 with Exc e => h e s1 | _ => (r1, s1) end in
    let '(r3, s3) := f s2 in
    match r3 with
    | Val _ => (r2, s3)
    | Ret r => (Ret r, s3)
    | Exc e => (Exc e, s3)
    end.

Definition M := ST world.

(** ** Library and host calls *)

Definition emit (ev : event) : M unit := fun w => (Val tt, add_event ev w).

Definition path_exists (f : fsys) (p : string) : bool :=
  negb (String.eqb p EmptyString)
  && match resolve f p with Some k => fs_exists f k | None => false end.

(** [os.path.exists(p)] *)
Definition os_path_exists (p : string) : M bool :=
  emit (FsExists p);;
  fun w => (Val (path_exists (fs w) p), w).

(** The directories [os.makedirs] creates along [rest], below [done]; [None]
    when an existing component is a file. *)
Fixpoint makedirs_walk (f : fsys) (done rest : list string) : option fsys :=
  match rest with
  | [] => Some f
  | c :: rest' =>
      let k := (done ++ [c])%list in
      match fs_lookup k f with
      | Some Dir => makedirs_walk f k rest'
      | Some (File _) => None
      | None => makedirs_walk (fs_set k Dir f) k rest'
      end
  end.

(** [os.makedirs(p)] (exist_ok=False) *)
Definition os_makedirs (p : string) : M unit :=
  emit (FsMakedirs p);;
  fun w =>
    if String.eqb p EmptyString then (Exc (FileNotFoundError p), w)
    else if path_exists (fs w) p then (Exc (FileExistsError p), w)
    else match makedirs_walk (fs w) [] (path_key p) with
         | Some f => (Val tt, set_fs f w)
         | None => (Exc (NotADirectoryError p), w)
         end.

(** The error for a path that does not resolve: ENOTDIR when a file stands
    where a directory is needed, ENOENT otherwise. *)
Definition missing_error (f : fsys) (p : string) : exn :=
  let k := path_key p in
  if existsb (fun kv => match snd kv with
                        | File _ => key_prefix (fst kv) k && negb (key_eqb (fst kv) k)
                        | Dir => false
                        end) f
  then NotADirectoryError p else FileNotFoundError p.

(** [open(p, mode)] for writing ('w' or 'wb'): the file is created or
    truncated; the handle is the file's key. *)
Definition open_write (p mode : string) : M (list string) :=
  emit (FsOpen p mode);;
  fun w =>
    if String.eqb p EmptyString then (Exc (FileNotFoundError p), w)
    else match resolve (fs w) p with
         | None => (Exc (missing_error (fs w) p), w)
         | Some [] => (Exc (IsADirectoryError p), w)
         | Some k =>
           match fs_lookup k (fs w) with
           | Some Dir => (Exc (IsADirectoryError p), w)
           | _ => if fs_is_dir (fs w) (removelast k)
                  then (Val k, set_fs (fs_set k (File EmptyString) (fs w)) w)
                  else (Exc (missing_error (fs w) p), w)
           end
         end.

(** [handle.write(data)] on a handle from [open_write] *)
Definition handle_write (k : list string) (data : string) : M unit :=
  fun w =>
    match fs_lookup k (fs w) with
    | Some (File d) => (Val tt, set_fs (fs_set k (File (d ++ data)) (fs w)) w)
    | _ => (Exc (FileNotFoundError EmptyString), w)
    end.

(** [with open(p, 'rb') as f: data = f.read()] *)
Definition read_file (p : string) : M string :=
  emit (FsOpen p "rb");;
  fun w =>
    if String.eqb p EmptyString then (Exc (FileNotFoundError p), w)
    else match resolve (fs w) p with
         | None => (Exc (missing_error (fs w) p), w)
         | Some [] => (Exc (IsADirectoryError p), w)
         | Some k =>
           match fs_lookup k (fs w) with
           | Some (File d) => (Val d, w)
           | Some Dir => (Exc (IsADirectoryError p), w)
           | None => (Exc (FileNotFoundError p), w)
           end
         end.

(** [data.decode('utf8')]: text is kept as its UTF-8 bytes *)
Definition decode_utf8 (d : string) : M string :=
  if valid_utf8 (bytes_of d) then ret d else raise UnicodeDecodeError.


(** [glob.glob1(dirname, pattern)]: an unreadable directory lists as empty *)
Definition glob1 (dirname pattern : string) : M (list string) :=
  emit (FsListdir dirname);;
  fun w =>
    let names := match resolve (fs w) dirname with
                 | Some k => if fs_is_dir (fs w) k then fs_children (fs w) k else []
                 | None => []
                 end in
    let names := if is_hidden pattern then names
                 else filter (fun x => negb (is_hidden x)) names in
    (Val (filter (fnmatch pattern) names), w).

(** [glob.glob(pathname)] for a pattern in its last component only. *)
Definition glob (pathname : string) : M (list string) :=
  let '(dirname, base) := os_path_split pathname in
  if has_magic dirname then
    raise (Unmodelled "glob with metacharacters in the directory part")
  else
    names <- glob1 dirname base;;
    ret (map (os_path_join dirname) names).

(** [bpy.utils.user_resource('DATAFILES', path=path, create=True)]: the
    host's per-user data directory joined with [path].  The host's own
    [os.makedirs] attempt, and its answer of an empty path when the target
    exists but is not a directory or cannot be created, are not modelled:
    here the directory is created by the module's check that follows, which
    has the same effect on the file system when the creation succeeds. *)
Definition user_resource_datafiles (path : string) : M string :=
  fun w => (Val (os_path_join (datafiles_dir w) path), w).

(** [bpy.data.node_groups[name]] *)
Definition node_groups_getitem (name : string) : M (list node) :=
  fun w => match find (fun kv => String.eqb (fst kv) name) (node_groups w) with
           | Some kv => (Val (snd kv), w)
           | None => (Exc (KeyError name), w)
           end.

(** [create_dict_of_tree(ng, selected=True)] *)
Definition create_dict_of_tree (ng : list node) : M json :=
  fun w => (Val (create_dict_of_tree_selected w ng), w).

Definition json_dumps (d : json) : M string :=
  fun w => (Val (json_dumps_sorted w d), w).

(** Modelled from the spec: [sv_IO_panel_tools.write_json], which is not
    part of this file; it serialises the dictionary as JSON and writes the
    text to the destination path, replacing any file there. *)
Definition write_json (layout_dict : json) (destination_path : string) : M unit :=
  m <- json_dumps layout_dict;;
  h <- open_write destination_path "w";;
  handle_write h m.

(** Modelled from the spec: [sv_IO_panel_tools.load_json_from_gist], which is
    not part of this file; it fetches the document stored under a gist id
    (or URL) from the remote service. *)
Definition load_json_from_gist (gist_id : string) : M json :=
  emit (NetFetch gist_id);;
  fun w => (Val (gist_content w gist_id), w).

(** [sv_gist_tools.main_upload_function(filename, description, body,
    show_browser=False)]: the URL of the new gist. *)
Definition main_upload_function (filename description body : string) : M string :=
  emit (NetUpload filename description);;
  fun w => match gist_upload w filename description body with
           | inl e => (Exc e, w)
           | inr url => (Val url, w)
           end.

(** Modelled from the spec: [sv_gist_tools.write_or_append_datafiles], which
    appends the mapping url -> filename to the local registry of uploads. *)
Definition write_or_append_datafiles (url filename : string) : M unit :=
  fun w => (Val tt, add_registry (url, filename) w).

Definition set_clipboard (c : string) : M unit := fun w => (Val tt, set_clipboard_w c w).

(** [self.report({level}, msg)] *)
Definition report (level msg : string) : M unit := fun w => (Val tt, add_report (level, msg) w).

(** [sverchok.utils.logging] *)
Definition log_error (msg : string) : M unit := fun w => (Val tt, add_log ("error", msg) w).
Definition log_info (msg : string) : M unit := fun w => (Val tt, add_log ("info", msg) w).
Definition log_exception (e : exn) : M unit := fun w => (Val tt, add_log ("exception", "traceback") w).

(** The names bound at module level (imports, lines 19-30, and the module's
    own definitions) and the builtins the module uses. *)
Definition module_globals : list string :=
  ["os"; "join"; "shutil"; "glob"; "bpy"; "StringProperty"; "BoolProperty";
   "write_json"; "create_dict_of_tree"; "import_tree"; "debug"; "info"; "error";
   "exception"; "sv_gist_tools"; "sv_IO_panel_tools";
   "get_presets_directory"; "get_preset_path"; "get_preset_paths"; "SvPreset";
   "get_presets"; "SvSaveSelected"; "SvRenamePreset"; "SvDeletePreset";
   "SvPresetToGist"; "SvPresetToFile"; "SvPresetFromFile"; "SvPresetFromGist";
   "draw_presets_ops"; "SvUserPresetsPanel"; "SvUserPresetsPanelProps"; "classes";
   "register"; "unregister"].

Definition builtin_names : list string :=
  ["list"; "sorted"; "filter"; "len"; "open"; "object"; "property"; "Exception";
   "any"; "reversed"; "str"; "print"].

(** Evaluating a global name: [NameError] when it is bound nowhere. *)
Definition lookup_global (n : string) : M unit :=
  if existsb (String.eqb n) (module_globals ++ builtin_names)%list then ret tt
  else raise (NameError n).

(** ** The module: [get_presets_directory], [get_preset_path], [get_preset_paths] *)

Definition get_presets_directory : M string :=
  r <- user_resource_datafiles "sverchok/presets";;
  let presets := r in
  e <- os_path_exists presets;;
  (if e then ret tt else os_makedirs presets);;
  ret presets.

Definition get_preset_path (name : string) : M string :=
  presets <- get_presets_directory;;
  ret (os_path_join presets (name ++ ".json")).

Definition get_preset_paths : M (list string) :=
  presets <- get_presets_directory;;
  g <- glob (os_path_join presets "*.json");;
  ret (py_sorted g).

(** ** [SvPreset]

    The object's two attributes; a method runs over the object and the
    world, so that an assignment done before a call that raises is kept. *)

Record SvPreset : Type := mk_preset { _name : option string; _path : option string }.

Definition OM := ST (SvPreset * world).

Definition lift {A} (m : M A) : OM A :=
  fun '(o, w) => let '(r, w') := m w in (r, (o, w')).

Definition get_self : OM SvPreset := fun '(o, w) => (Val o, (o, w)).
Definition put_self (o : SvPreset) : OM unit := fun '(_, w) => (Val tt, (o, w)).

(** [SvPreset(name=name, path=path)] *)
Definition SvPreset_init (name path : option string) : M SvPreset :=
  match name, path with
  | None, None =>
      raise (Exception "Either name or path must be specified when initializing SvPreset")
  | _, _ => ret (mk_preset name path)
  end.

Definition SvPreset_get_name : OM string :=
  self <- get_self;;
  match _name self with
  | Some n => ret n
  | None =>
      match _path self with
      | None => raise TypeError    (* os.path.basename(None) *)
      | Some p =>
          let name := basename p in
          let name := fst (splitext name) in
          put_self (mk_preset (Some name) (_path self));;
          ret name
      end
  end.

Definition SvPreset_set_name (new_name : string) : OM unit :=
  self <- get_self;;
  put_self (mk_preset (Some new_name) (_path self));;
  p <- lift (get_preset_path new_name);;
  self <- get_self;;
  put_self (mk_preset (_name self) (Some p)).

Definition SvPreset_get_path : OM string :=
  self <- get_self;;
  match _path self with
  | Some p => ret p
  | None =>
      match _name self with
      | None => raise TypeError    (* None + ".json" *)
      | Some n =>
          path <- lift (get_preset_path n);;
          self <- get_self;;
          put_self (mk_preset (_name self) (Some path));;
          ret path
      end
  end.

Definition SvPreset_set_path (new_path : string) : OM unit :=
  let name := basename new_path in
  let name := fst (splitext name) in
  put_self (mk_preset (Some name) (Some new_path)).

Definition get_presets : M (list SvPreset) :=
  paths <- get_preset_paths;;
  (fix loop (ps : list string) : M (list SvPreset) :=
     match ps with
     | [] => ret []
     | p :: ps' => o <- SvPreset_init None (Some p);;
                   os <- loop ps';;
                   ret (o :: os)
     end) paths.

(** ** The operators *)

(** [error(msg); self.report({'ERROR'}, msg); return {'CANCELLED'}] *)
Definition fail_with {A} (msg : string) : M A :=
  log_error msg;; report "ERROR" msg;; return_ CANCELLED.

Definition SvSaveSelected_execute (id_tree preset_name : string) : M op_result :=
  call (
    if String.eqb id_tree EmptyString then fail_with "Node tree is not specified" else
    if String.eqb preset_name EmptyString then fail_with "Preset name is not specified" else
    ng <- node_groups_getitem id_tree;;
    let nodes := filter select ng in
    if Nat.eqb (List.length nodes) 0 then fail_with "There are no selected nodes to export" else
    layout_dict <- create_dict_of_tree ng;;
    destination_path <- get_preset_path preset_name;;
    write_json layout_dict destination_path;;
    let msg := "exported to: " ++ destination_path in
    report "INFO" msg;;
    log_info msg;;
    return_ FINISHED).


(** The statements of [SvPresetToGist.execute] before its [try] block. *)
Definition to_gist_read_body (preset_name : string) : M string :=
  path <- get_preset_path preset_name;;
  raw <- read_file path;;
  decode_utf8 raw.

Definition to_gist_upload (gist_filename gist_description gist_body : string) : M unit :=
  try_except_finally
    (gist_url <- main_upload_function gist_filename gist_description gist_body;;
     set_clipboard gist_url;;
     log_info gist_url;;
     report "WARNING" "Copied gist URL to clipboad";;
     write_or_append_datafiles gist_url gist_filename)
    (fun err =>
       log_exception err;;
       report "ERROR" "Error uploading the gist, check your internet connection!";;
       return_ CANCELLED)
    (return_ FINISHED).

Definition SvPresetToGist_execute (preset_name : string) : M op_result :=
  call (
    if String.eqb preset_name EmptyString then fail_with "Preset name is not specified" else
    let gist_filename := preset_name ++ ".json" in
    let gist_description := preset_name in
    gist_body <- to_gist_read_body preset_name;;
    to_gist_upload gist_filename gist_description gist_body).

Definition SvPresetFromGist_execute (gist_id preset_name : string) : M op_result :=
  call (
    if String.eqb preset_name EmptyString then fail_with "Preset name is not specified" else
    if String.eqb gist_id EmptyString then fail_with "Gist ID is not specified" else
    gist_data <- load_json_from_gist gist_id;;
    target_path <- get_preset_path preset_name;;
    e <- os_path_exists target_path;;
    if e then fail_with ("Preset named `" ++ preset_name
                         ++ "' already exists. Refusing to rewrite existing preset.") else
    jsonfile <- open_write target_path "wb";;
    (* the body of the [with] block; closing the file has no further effect *)
    lookup_global "json";;
    text <- json_dumps gist_data;;
    handle_write jsonfile text;;
    let msg := "Imported `" ++ gist_id ++ "' as `" ++ preset_name ++ "'" in
    log_info msg;;
    report "INFO" msg;;
    return_ FINISHED).

(** ** Vocabulary of the statements *)

(** The value [get_presets_directory()] returns. *)
Definition presets_dir (w : world) : string :=
  os_path_join (datafiles_dir w) "sverchok/presets".

(** The value [get_preset_path(name)] returns. *)
Definition preset_path (w : world) (name : string) : string :=
  os_path_join (presets_dir w) (name ++ ".json").

(** [f'] keeps every entry of [f] and holds no file that [f] did not. *)
Definition fs_grows (f f' : fsys) : Prop :=
  (forall k e, fs_lookup k f = Some e -> fs_lookup k f' = Some e) /\
  (forall k d, fs_lookup k f' = Some (File d) -> fs_lookup k f = Some (File d)).

(** [w'] differs from [w] at most in its file system and its new events. *)
Definition frame (w w' : world) : Prop :=
  (exists evs, events w' = (events w ++ evs)%list) /\
  reports w' = reports w /\ logs w' = logs w /\ clipboard w' = clipboard w /\
  gist_registry w' = gist_registry w /\ node_groups w' = node_groups w /\
  datafiles_dir w' = datafiles_dir w /\ gist_upload w' = gist_upload w /\
  gist_content w' = gist_content w /\
  create_dict_of_tree_selected w' = create_dict_of_tree_selected w /\
  json_dumps_sorted w' = json_dumps_sorted w.

(** [bpy.data.node_groups.get(name)] *)
Definition find_group (w : world) (name : string) : option (list node) :=
  option_map snd (find (fun kv => String.eqb (fst kv) name) (node_groups w)).

(** ** Example worlds *)

Definition ex_upload (filename description body : string) : exn + string :=
  if String.eqb description "offline" then inl (ConnectionError "network unreachable")
  else inr ("https://gist.github.com/" ++ filename).

Definition ex_world (f : fsys) (datafiles : string) : world :=
  mk_world f [] [] [] EmptyString []
    [("NodeTree", [mk_node "Box" true; mk_node "Viewer" false]);
     ("Idle", [mk_node "Box" false])]
    datafiles ex_upload (fun _ => JObj []) (fun _ => JObj []) (fun _ => "{}").

(** a presets directory /data/sverchok/presets holding a.json and a-b.json *)
Definition ex_presets_fs : fsys :=
  [(["data"], Dir); (["data"; "sverchok"], Dir); (["data"; "sverchok"; "presets"], Dir);
   (["data"; "sverchok"; "presets"; "a.json"], File "{}");
   (["data"; "sverchok"; "presets"; "a-b.json"], File "{1}")].

Definition ex_w : world := ex_world ex_presets_fs "/data".


(** [ex_w] with a preset offline.json, whose upload fails *)
Definition ex_offline_w : world :=
  ex_world ((["data"; "sverchok"; "presets"; "offline.json"], File "{}") :: ex_presets_fs)
    "/data".


(** The names [os.listdir] gives for the directory [p]; none when [p] does
    not name a directory. *)
Definition dir_listing (f : fsys) (p : string) : list string :=
  match resolve f p with
  | Some k => if fs_is_dir f k then fs_children f k else []
  | None => []
  end.

(** a presets directory holding a.json, a-b.json, the hidden .h.json and
    notes.txt *)
Definition ex_list_w : world :=
  ex_world ((["data"; "sverchok"; "presets"; ".h.json"], File "{}")
            :: (["data"; "sverchok"; "presets"; "notes.txt"], File "x")
            :: ex_presets_fs) "/data".

(** ** Sequences of accesses to a preset *)

(** reading or assigning the [name] or [path] property *)
Inductive preset_op : Type :=
| PGetName
| PGetPath
| PSetName (n : string)
| PSetPath (p : string).

Definition run_op (op : preset_op) : OM unit :=
  match op with
  | PGetName => SvPreset_get_name;; ret tt
  | PGetPath => SvPreset_get_path;; ret tt
  | PSetName n => SvPreset_set_name n
  | PSetPath p => SvPreset_set_path p
  end.

Fixpoint run_ops (ops : list preset_op) : OM unit :=
  match ops with
  | [] => ret tt
  | op :: ops' => run_op op;; run_ops ops'
  end.

Definition is_getter (op : preset_op) : Prop :=
  match op with PGetName | PGetPath => True | _ => False end.

(** The value the [name] property reads, when it reads one. *)
Definition obs_name (o : SvPreset) : option string :=
  match _name o with
  | Some n => Some n
  | None => option_map stem (_path o)
  end.

(** The value the [path] property reads, when it reads one. *)
Definition obs_path (w : world) (o : SvPreset) : option string :=
  match _path o with
  | Some p => Some p
  | None => option_map (preset_path w) (_name o)
  end.

(** What the two properties read after [op], from what they read before. *)
Definition step_obs (w : world) (op : preset_op) (cur : option string * option string)
  : option string * option string :=
  match op with
  | PSetName n => (Some n, Some (preset_path w n))
  | PSetPath p => (Some (stem p), Some p)
  | _ => cur
  end.

(** ** More of the library: [os.remove], [os.stat], [shutil.copy] *)

(** [os.remove(p)] (POSIX unlink(2), Linux error codes) *)
Definition os_remove (p : string) : M unit :=
  emit (FsRemove p);;
  fun w =>
    let f := fs w in
    if String.eqb p EmptyString then (Exc (FileNotFoundError p), w)
    else match resolve f p with
         | None => (Exc (missing_error f p), w)
         | Some [] => (Exc (IsADirectoryError p), w)
         | Some k =>
           match fs_lookup k f with
           | Some (File _) => (Val tt, set_fs (fs_remove k f) w)
           | Some Dir => (Exc (IsADirectoryError p), w)
           | None => (Exc (FileNotFoundError p), w)
           end
         end.

(** The entry [os.stat(p)] reports; [None] when it raises. *)
Definition stat_key (f : fsys) (p : string) : option (list string) :=
  if String.eqb p EmptyString then None
  else match resolve f p with
       | Some k => if fs_exists f k then Some k else None
       | None => None
       end.

(** [os.path.isdir(p)] *)
Definition os_path_isdir (f : fsys) (p : string) : bool :=
  match stat_key f p with Some k => fs_is_dir f k | None => false end.

(** [shutil._samefile(src, dst)]: [os.path.samefile], with [False] when a
    [stat] raises; without links, the same file is the same entry. *)
Definition shutil_samefile (f : fsys) (src dst : string) : bool :=
  match stat_key f src, stat_key f dst with
  | Some k1, Some k2 => key_eqb k1 k2
  | _, _ => false
  end.

(** [open(p, 'rb')]: the handle is the file's key. *)
Definition open_read (p : string) : M (list string) :=
  emit (FsOpen p "rb");;
  fun w =>
    if String.eqb p EmptyString then (Exc (FileNotFoundError p), w)
    else match resolve (fs w) p with
         | None => (Exc (missing_error (fs w) p), w)
         | Some [] => (Exc (IsADirectoryError p), w)
         | Some k =>
           match fs_lookup k (fs w) with
           | Some (File _) => (Val k, w)
           | Some Dir => (Exc (IsADirectoryError p), w)
           | None => (Exc (FileNotFoundError p), w)
           end
         end.

(** [handle.read()] on a handle from [open_read] *)
Definition handle_read (k : list string) : M string :=
  fun w =>
    match fs_lookup k (fs w) with
    | Some (File d) => (Val d, w)
    | _ => (Exc (FileNotFoundError EmptyString), w)
    end.

(** A query of the file system that changes nothing. *)
Definition fs_query {A} (q : fsys -> A) : M A := fun w => (Val (q (fs w)), w).

(** [shutil.copyfile(src, dst)]: [SameFileError] (an [OSError]) when both
    name the same file; then [open(src, 'rb')], [open(dst, 'wb')] and the
    copy of the content.  There are no special files to refuse. *)
Definition shutil_copyfile (src dst : string) : M unit :=
  same <- fs_query (fun f => shutil_samefile f src dst);;
  if same then raise (OSError src) else
  fsrc <- open_read src;;
  fdst <- open_write dst "wb";;
  data <- handle_read fsrc;;
  handle_write fdst data.

(** [shutil.copy(src, dst)]: into [dst/basename(src)] when [dst] is a
    directory; the permission bits [copymode] copies are not modelled, and
    of its system calls only the two [open]s are recorded as events (the
    [stat] calls of [isdir], [samefile] and [copymode] and the [chmod] are
    not traced). *)
Definition shutil_copy (src dst : string) : M string :=
  d <- fs_query (fun f => os_path_isdir f dst);;
  let dst := if d then os_path_join dst (basename src) else dst in
  shutil_copyfile src dst;;
  ret dst.

(** ** The other operators *)

Definition SvDeletePreset_execute (preset_name : string) : M op_result :=
  call (
    if String.eqb preset_name EmptyString then fail_with "Preset name is not specified" else
    path <- get_preset_path preset_name;;
    os_remove path;;
    log_info ("Removed `" ++ path ++ "'");;
    report "INFO" ("Removed `" ++ preset_name ++ "'");;
    return_ FINISHED).

Definition SvPresetToFile_execute (preset_name filepath : string) : M op_result :=
  call (
    if String.eqb preset_name EmptyString then fail_with "Preset name is not specified" else
    if String.eqb filepath EmptyString then fail_with "Target file path is not specified" else
    existing_path <- get_preset_path preset_name;;
    shutil_copy existing_path filepath;;
    let msg := "Saved `" ++ preset_name ++ "' as `" ++ filepath ++ "'" in
    log_info msg;;
    report "INFO" msg;;
    return_ FINISHED).

Definition SvPresetFromFile_execute (preset_name filepath : string) : M op_result :=
  call (
    if String.eqb preset_name EmptyString then fail_with "Preset name is not specified" else
    if String.eqb filepath EmptyString then fail_with "Source file path is not specified" else
    target_path <- get_preset_path preset_name;;
    shutil_copy filepath target_path;;
    let msg := "Imported `" ++ filepath ++ "' as `" ++ preset_name ++ "'" in
    log_info msg;;
    report "INFO" msg;;
    return_ FINISHED).


(** an export target directory /out beside the presets of [ex_w] *)
Definition ex_out_w : world :=
  ex_world ((["out"], Dir) :: ex_presets_fs) "/data".

(** ** Drawing the presets

    A UI layout as the operator buttons added to it, oldest first, each with
    the properties the module sets on it. *)

Record drawn_op : Type := mk_drawn_op {
  op_idname : string; op_text : string; op_id_tree : string; op_filepath : string }.

Fixpoint update_at {A} (i : nat) (g : A -> A) (l : list A) : list A :=
  match l, i with
  | [], _ => []
  | x :: l', 0 => g x :: l'
  | x :: l', S i' => x :: update_at i' g l'
  end.

(** [SvPreset.draw_operator] runs over the layout, the preset and the world. *)
Definition DS := ST (list drawn_op * (SvPreset * world)).

Definition lift_o {A} (m : OM A) : DS A :=
  fun '(l, ow) => let '(r, ow') := m ow in (r, (l, ow')).

(** [layout.operator(idname, text=text)]: a new button with its properties
    at their defaults; the handle is its position. *)
Definition layout_operator (idname text : string) : DS nat :=
  fun '(l, ow) => (Val (List.length l), ((l ++ [mk_drawn_op idname text EmptyString EmptyString])%list, ow)).

Definition set_op_id_tree (i : nat) (v : string) : DS unit :=
  fun '(l, ow) =>
    (Val tt, (update_at i (fun o => mk_drawn_op (op_idname o) (op_text o) v (op_filepath o)) l, ow)).

Definition set_op_filepath (i : nat) (v : string) : DS unit :=
  fun '(l, ow) =>
    (Val tt, (update_at i (fun o => mk_drawn_op (op_idname o) (op_text o) (op_id_tree o) v) l, ow)).

Definition SvPreset_draw_operator (id_tree : string) : DS unit :=
  text <- lift_o SvPreset_get_name;;
  op <- layout_operator "node.tree_importer_silent" text;;
  set_op_id_tree op id_tree;;
  p <- lift_o SvPreset_get_path;;
  set_op_filepath op p.

(** [draw_presets_ops] runs over the layout and the world. *)
Definition LM := ST (list drawn_op * world).

Definition lift_w {A} (m : M A) : LM A :=
  fun '(l, w) => let '(r, w') := m w in (r, (l, w')).

(** [for preset in presets: preset.draw_operator(layout, id_tree)]; the
    value is the presets as the calls leave them (the caller's objects). *)
Fixpoint draw_loop (id_tree : string) (ps : list SvPreset) : LM (list SvPreset) :=
  match ps with
  | [] => ret []
  | o :: ps' =>
      fun '(l, w) =>
        match SvPreset_draw_operator id_tree (l, (o, w)) with
        | (Val _, (l', (o', w'))) =>
            let '(r, s) := draw_loop id_tree ps' (l', w') in
            match r with
            | Val os => (Val (o' :: os), s)
            | Ret r => (Ret r, s)
            | Exc e => (Exc e, s)
            end
        | (Ret r, (l', (_, w'))) => (Ret r, (l', w'))
        | (Exc e, (l', (_, w'))) => (Exc e, (l', w'))
        end
  end.

(** [draw_presets_ops(layout, id_tree, presets, context)]; [context] is
    [None], or the name of its space's node tree ([None] when the space has
    no node tree, where [.name] raises AttributeError). *)
Definition draw_presets_ops (id_tree : option string) (presets : option (list SvPreset))
  (context : option (option string)) : LM (list SvPreset) :=
  presets <- match presets with
             | None => lift_w get_presets
             | Some ps => ret ps
             end;;
  id_tree <- match id_tree with
             | Some t => ret t
             | None =>
               match context with
               | None => raise (Exception "Either id_tree or context must be provided for draw_presets_ops()")
               | Some None => raise (Unmodelled "AttributeError: 'NoneType' object has no attribute 'name'")
               | Some (Some t) => ret t
               end
             end;;
  draw_loop id_tree presets.

(** * Proofs *)

(** ** Monad and record lemmas *)

Lemma bind_val {S A B} (m : ST S A) (k : A -> ST S B) s a s' :
  m s = (Val a, s') -> bind m k s = k a s'.
Proof. intros H. unfold bind. now rewrite H. Qed.

Lemma bind_exc {S A B} (m : ST S A) (k : A -> ST S B) s e s' :
  m s = (Exc e, s') -> bind m k s = (Exc e, s').
Proof. intros H. unfold bind. now rewrite H. Qed.

Lemma key_eqb_true k1 k2 : key_eqb k1 k2 = true <-> k1 = k2.
Proof. unfold key_eqb. destruct (list_eq_dec string_dec k1 k2); split; congruence. Qed.

Lemma key_eqb_refl k : key_eqb k k = true.
Proof. now apply key_eqb_true. Qed.

Lemma fs_lookup_remove k k' f :
  fs_lookup k (fs_remove k' f) = if key_eqb k k' then None else fs_lookup k f.
Proof.
  unfold fs_remove.
  induction f as [|[k0 e0] f IH]; cbn [filter fs_lookup fst].
  - now destruct (key_eqb k k').
  - destruct (key_eqb k0 k') eqn:E0; cbn [negb filter fs_lookup].
    + apply key_eqb_true in E0; subst k0.
      rewrite IH. destruct (key_eqb k k') eqn:E; [reflexivity|].
      destruct (key_eqb k k') eqn:E'; congruence.
    + destruct (key_eqb k k0) eqn:E1; [|exact IH].
      apply key_eqb_true in E1; subst k0. now rewrite E0.
Qed.

Lemma fs_lookup_set k k' e f :
  fs_lookup k (fs_set k' e f) = if key_eqb k k' then Some e else fs_lookup k f.
Proof.
  unfold fs_set. cbn. destruct (key_eqb k k') eqn:E; [reflexivity|].
  rewrite fs_lookup_remove, E. reflexivity.
Qed.

Lemma fs_grows_refl f : fs_grows f f.
Proof. split; auto. Qed.

Lemma fs_grows_trans f1 f2 f3 : fs_grows f1 f2 -> fs_grows f2 f3 -> fs_grows f1 f3.
Proof. intros [A B] [C D]. split; auto. Qed.

Lemma fs_grows_set_dir f k :
  fs_lookup k f = None -> fs_grows f (fs_set k Dir f).
Proof.
  intros Hk. split.
  - intros k0 e H. rewrite fs_lookup_set. destruct (key_eqb k0 k) eqn:E; [|exact H].
    apply key_eqb_true in E; subst. congruence.
  - intros k0 d H. rewrite fs_lookup_set in H.
    destruct (key_eqb k0 k); [discriminate|exact H].
Qed.

Lemma makedirs_walk_grows f d r f' :
  makedirs_walk f d r = Some f' -> fs_grows f f'.
Proof.
  revert f d. induction r as [|c r IH]; intros f d H; cbn in H.
  - inversion H. apply fs_grows_refl.
  - destruct (fs_lookup (d ++ [c])%list f) as [[data|]|] eqn:E.
    + discriminate.
    + eapply IH; exact H.
    + eapply fs_grows_trans; [apply fs_grows_set_dir; exact E|]. eapply IH; exact H.
Qed.

Lemma frame_refl w : frame w w.
Proof. repeat split; auto. exists []. now rewrite app_nil_r. Qed.

Lemma frame_trans w1 w2 w3 : frame w1 w2 -> frame w2 w3 -> frame w1 w3.
Proof.
  intros [[e1 E1] H1] [[e2 E2] H2].
  repeat match goal with H : _ /\ _ |- _ => destruct H end.
  repeat split; try congruence.
  exists (e1 ++ e2)%list. rewrite E2, E1. now rewrite app_assoc.
Qed.

Lemma frame_add_event w ev : frame w (add_event ev w).
Proof. repeat split; auto. now exists [ev]. Qed.

Lemma frame_set_fs w f : frame w (set_fs f w).
Proof. repeat split; auto. exists []. cbn. now rewrite app_nil_r. Qed.

(** ** [get_presets_directory] and [get_preset_path] *)

Lemma os_makedirs_cases p w :
  exists w', (os_makedirs p w = (Val tt, w') \/ exists e, os_makedirs p w = (Exc e, w'))
             /\ frame w w' /\ fs_grows (fs w) (fs w').
Proof.
  unfold os_makedirs, bind, emit. cbn -[path_exists makedirs_walk].
  destruct (String.eqb p EmptyString).
  { eexists. split; [right; eauto|]. split; [apply frame_add_event|apply fs_grows_refl]. }
  destruct (path_exists (fs w) p).
  { eexists. split; [right; eauto|]. split; [apply frame_add_event|apply fs_grows_refl]. }
  destruct (makedirs_walk (fs w) [] (path_key p)) as [f|] eqn:E.
  - eexists. split; [left; reflexivity|]. split.
    + eapply frame_trans; [apply frame_add_event|apply frame_set_fs].
    + cbn. eapply makedirs_walk_grows; exact E.
  - eexists. split; [right; eauto|]. split; [apply frame_add_event|apply fs_grows_refl].
Qed.

Lemma get_presets_directory_cases w :
  exists w',
    (get_presets_directory w = (Val (presets_dir w), w')
     \/ exists e, get_presets_directory w = (Exc e, w'))
    /\ frame (add_event (FsExists (presets_dir w)) w) w' /\ fs_grows (fs w) (fs w')
    /\ (path_exists (fs w) (presets_dir w) = true ->
        w' = add_event (FsExists (presets_dir w)) w
        /\ get_presets_directory w = (Val (presets_dir w), w')).
Proof.
  unfold get_presets_directory, bind, user_resource_datafiles, os_path_exists, emit, ret.
  cbn -[path_exists os_makedirs os_path_join]. fold (presets_dir w).
  destruct (path_exists (fs w) (presets_dir w)) eqn:E.
  - eexists. split; [left; reflexivity|].
    split; [apply frame_refl|]. split; [apply fs_grows_refl|]. auto.
  - destruct (os_makedirs_cases (presets_dir w) (add_event (FsExists (presets_dir w)) w))
      as (w2 & [Hm|[e Hm]] & Hf & Hg); rewrite Hm.
    + exists w2. split; [left; reflexivity|].
      split; [exact Hf|]. split; [exact Hg|]. discriminate.
    + exists w2. split; [right; eauto|].
      split; [exact Hf|]. split; [exact Hg|]. discriminate.
Qed.

Lemma get_preset_path_cases n w :
  exists w',
    (get_preset_path n w = (Val (preset_path w n), w')
     \/ exists e, get_preset_path n w = (Exc e, w'))
    /\ frame (add_event (FsExists (presets_dir w)) w) w' /\ fs_grows (fs w) (fs w')
    /\ (path_exists (fs w) (presets_dir w) = true ->
        w' = add_event (FsExists (presets_dir w)) w
        /\ get_preset_path n w = (Val (preset_path w n), w')).
Proof.
  destruct (get_presets_directory_cases w) as (w' & Hc & Hf & Hg & Hx).
  exists w'. unfold get_preset_path.
  destruct Hc as [H|[e H]].
  - rewrite (bind_val _ _ _ _ _ H). split; [left; reflexivity|].
    split; [exact Hf|]. split; [exact Hg|].
    intros He. destruct (Hx He) as [Hw _]. split; [exact Hw|reflexivity].
  - rewrite (bind_exc _ _ _ _ _ H). split; [right; eauto|].
    split; [exact Hf|]. split; [exact Hg|].
    intros He. destruct (Hx He) as [_ H']. congruence.
Qed.




Lemma frame_of_add_event w ev w' : frame (add_event ev w) w' -> frame w w'.
Proof. intros H. eapply frame_trans; [apply frame_add_event|exact H]. Qed.

Lemma ends_with_refl s : ends_with s s = true.
Proof.
  destruct s as [|c s']; [reflexivity|].
  cbn [ends_with]. now rewrite String.eqb_refl.
Qed.

Lemma ends_with_app t s : ends_with s (t ++ s) = true.
Proof.
  induction t as [|c t IH]; cbn [append].
  - apply ends_with_refl.
  - cbn [ends_with]. rewrite IH. apply orb_true_r.
Qed.

Lemma str_app_assoc a b c : (a ++ b) ++ c = a ++ (b ++ c).
Proof. induction a as [|x a IH]; cbn; [reflexivity|now rewrite IH]. Qed.


(** ** C5: [get_preset_path] *)



(** ** C6: validation of [SvSaveSelected] *)

Lemma filter_nil_of_existsb {A} (f : A -> bool) l :
  existsb f l = false -> filter f l = [].
Proof.
  induction l as [|x l IH]; cbn; [reflexivity|].
  intros H. apply orb_false_iff in H as [H1 H2]. rewrite H1. now apply IH.
Qed.

Lemma eqb_empty_true s : s = EmptyString -> String.eqb s EmptyString = true.
Proof. intros ->. reflexivity. Qed.

Lemma eqb_empty_false s : s <> EmptyString -> String.eqb s EmptyString = false.
Proof. apply String.eqb_neq. Qed.

(** C6 (amended). [SvSaveSelected.execute] checks, in this order and before
    any side effect: that the tree name is given, that the preset name is
    given, and (after looking the tree up) that at least one of its nodes is
    selected; each failed check returns CANCELLED with its own error report,
    and the file system and the event trace are untouched.  A tree name that
    names no node group is not such a validation failure: the lookup raises
    KeyError, also without any side effect. *)
Theorem save_selected_validation (w : world) (id_tree preset_name : string) :
  match SvSaveSelected_execute id_tree preset_name w with
  | (r, w') =>
    (id_tree = EmptyString ->
       r = Val CANCELLED
       /\ reports w' = (reports w ++ [("ERROR", "Node tree is not specified")])%list
       /\ fs w' = fs w /\ events w' = events w)
    /\ (id_tree <> EmptyString -> preset_name = EmptyString ->
       r = Val CANCELLED
       /\ reports w' = (reports w ++ [("ERROR", "Preset name is not specified")])%list
       /\ fs w' = fs w /\ events w' = events w)
    /\ (id_tree <> EmptyString -> preset_name <> EmptyString ->
        find_group w id_tree = None ->
        r = Exc (KeyError id_tree) /\ w' = w)
    /\ (forall ng, id_tree <> EmptyString -> preset_name <> EmptyString ->
        find_group w id_tree = Some ng -> existsb select ng = false ->
        r = Val CANCELLED
        /\ reports w' = (reports w ++ [("ERROR", "There are no selected nodes to export")])%list
        /\ fs w' = fs w /\ events w' = events w)
  end.
Proof.
  destruct (SvSaveSelected_execute id_tree preset_name w) as [r w'] eqn:E.
  unfold SvSaveSelected_execute in E.
  destruct (String.eqb id_tree EmptyString) eqn:Ei.
  { apply String.eqb_eq in Ei. subst id_tree. cbn in E. injection E as <- <-.
    repeat split; try reflexivity; intros; congruence. }
  apply String.eqb_neq in Ei.
  destruct (String.eqb preset_name EmptyString) eqn:Ep.
  { apply String.eqb_eq in Ep. subst preset_name. cbn in E. injection E as <- <-.
    repeat split; try reflexivity; intros; congruence. }
  apply String.eqb_neq in Ep.
  unfold find_group.
  split; [intros; congruence|]. split; [intros; congruence|].
  unfold node_groups_getitem, call, bind in E.
  destruct (find (fun kv => String.eqb (fst kv) id_tree) (node_groups w)) as [[g ng]|] eqn:Ef;
    cbn [option_map snd] in *.
  - split; [intros _ _ Hn; discriminate|].
    intros ng' _ _ Hg Hs. injection Hg as <-.
    rewrite (filter_nil_of_existsb _ _ Hs) in E. cbn in E. injection E as <- <-.
    repeat split.
  - split; [intros _ _ _; injection E as <- <-; split; reflexivity|].
    intros ng' _ _ Hg. discriminate.
Qed.

(** C6, counterexample: a tree name that names no node group raises
    KeyError instead of returning CANCELLED with a validation error. *)
Lemma save_selected_missing_tree_raises :
  fst (SvSaveSelected_execute "NoSuchTree" "p" ex_w) = Exc (KeyError "NoSuchTree").
Proof. vm_compute. reflexivity. Qed.

(** ** C1: [SvPresetToGist] always finishes *)

(** C1. Once the preset file has been read, [SvPresetToGist.execute] returns
    FINISHED whatever the upload does: when the upload raises, the exception
    is logged, the connection error is reported, and the [return FINISHED] of
    the [finally] clause overrides the handler's [return CANCELLED]; when it
    succeeds, the URL is put on the clipboard and the warning is reported. *)
Theorem to_gist_always_finished (w : world) (name body : string) (w1 : world) :
  name <> EmptyString ->
  to_gist_read_body name w = (Val body, w1) ->
  let '(r, w') := SvPresetToGist_execute name w in
  r = Val FINISHED
  /\ (forall e, gist_upload w1 (name ++ ".json") name body = inl e ->
        reports w' = (reports w1
                      ++ [("ERROR", "Error uploading the gist, check your internet connection!")])%list
        /\ logs w' = (logs w1 ++ [("exception", "traceback")])%list)
  /\ (forall url, gist_upload w1 (name ++ ".json") name body = inr url ->
        reports w' = (reports w1 ++ [("WARNING", "Copied gist URL to clipboad")])%list
        /\ clipboard w' = url).
Proof.
  intros Hn E.
  unfold SvPresetToGist_execute, call.
  rewrite (eqb_empty_false _ Hn).
  cbv zeta. unfold bind at 1. rewrite E.
  unfold to_gist_upload, try_except_finally, main_upload_function, bind, emit.
  cbn [add_event gist_upload].
  destruct (gist_upload w1 (name ++ ".json") name body) as [e|url] eqn:Eu;
    cbn; (split; [reflexivity|]); split; intros x Hx; try discriminate.
  - split; reflexivity.
  - injection Hx as <-. split; reflexivity.
Qed.

Lemma to_gist_always_finished_witness :
  to_gist_read_body "offline" ex_offline_w
    = (Val "{}", snd (to_gist_read_body "offline" ex_offline_w))
  /\ let '(r, w') := SvPresetToGist_execute "offline" ex_offline_w in
     r = Val FINISHED
     /\ (forall e, gist_upload (snd (to_gist_read_body "offline" ex_offline_w))
                     ("offline" ++ ".json") "offline" "{}" = inl e ->
           reports w' = (reports (snd (to_gist_read_body "offline" ex_offline_w))
             ++ [("ERROR", "Error uploading the gist, check your internet connection!")])%list
           /\ logs w' = (logs (snd (to_gist_read_body "offline" ex_offline_w))
                         ++ [("exception", "traceback")])%list)
     /\ (forall url, gist_upload (snd (to_gist_read_body "offline" ex_offline_w))
                       ("offline" ++ ".json") "offline" "{}" = inr url ->
           reports w' = (reports (snd (to_gist_read_body "offline" ex_offline_w))
                         ++ [("WARNING", "Copied gist URL to clipboad")])%list
           /\ clipboard w' = url).
Proof.
  assert (E : to_gist_read_body "offline" ex_offline_w
              = (Val "{}", snd (to_gist_read_body "offline" ex_offline_w)))
    by (vm_compute; reflexivity).
  split; [exact E|].
  apply (to_gist_always_finished ex_offline_w "offline" "{}" _); [discriminate|exact E].
Defined.

(** ** [SvPresetFromGist] *)

Lemma bind_ret {S A B} (m : ST S A) (k : A -> ST S B) s r s' :
  m s = (Ret r, s') -> bind m k s = (Ret r, s').
Proof. intros H. unfold bind. now rewrite H. Qed.

Lemma lookup_global_json : forall w, lookup_global "json" w = (Exc (NameError "json"), w).
Proof. intros w. reflexivity. Qed.

Lemma presets_dir_add_event w ev : presets_dir (add_event ev w) = presets_dir w.
Proof. reflexivity. Qed.


Lemma fail_with_run {A} msg w :
  @fail_with A msg w
  = (Ret CANCELLED, add_report ("ERROR", msg) (add_log ("error", msg) w)).
Proof. reflexivity. Qed.

(** The run of [SvPresetFromGist.execute] with both names given: the fetch,
    [get_preset_path], the existence check, then [open(target, 'wb')] and the
    lookup of the unimported name [json]. *)
Lemma from_gist_run w gid name :
  name <> EmptyString -> gid <> EmptyString ->
  let w0 := add_event (NetFetch gid) w in
  exists w1,
    frame (add_event (FsExists (presets_dir w)) w0) w1 /\ fs_grows (fs w) (fs w1)
    /\ (path_exists (fs w) (presets_dir w) = true ->
        w1 = add_event (FsExists (presets_dir w)) w0)
    /\ ((exists e, get_preset_path name w0 = (Exc e, w1)
                   /\ SvPresetFromGist_execute gid name w = (Exc e, w1))
        \/ (get_preset_path name w0 = (Val (preset_path w name), w1)
            /\ let t := preset_path w name in
               let w2 := add_event (FsExists t) w1 in
               SvPresetFromGist_execute gid name w
               = if path_exists (fs w1) t then
                   (Val CANCELLED,
                    add_report ("ERROR", "Preset named `" ++ name
                       ++ "' already exists. Refusing to rewrite existing preset.")
                      (add_log ("error", "Preset named `" ++ name
                       ++ "' already exists. Refusing to rewrite existing preset.") w2))
                 else let '(r3, w3) := open_write t "wb" w2 in
                      (match r3 with
                       | Val _ => Exc (NameError "json")
                       | Ret r => Val r
                       | Exc e => Exc e
                       end, w3))).
Proof.
  intros Hn Hg w0.
  destruct (get_preset_path_cases name w0) as (w1 & Hc & Hf & Hgr & Hx).
  exists w1.
  split; [exact Hf|]. split; [exact Hgr|].
  split; [intros He; now destruct (Hx He)|].
  unfold SvPresetFromGist_execute, call.
  rewrite (eqb_empty_false _ Hn), (eqb_empty_false _ Hg).
  assert (El : load_json_from_gist gid w = (Val (gist_content w gid), w0)) by reflexivity.
  rewrite (bind_val _ _ _ _ _ El). cbv beta.
  destruct Hc as [Hc|[e Hc]].
  - right. split; [exact Hc|].
    rewrite (bind_val _ _ _ _ _ Hc). cbv beta zeta.
    change (preset_path w0 name) with (preset_path w name).
    set (t := preset_path w name).
    assert (Ee : os_path_exists t w1
                 = (Val (path_exists (fs w1) t), add_event (FsExists t) w1)) by reflexivity.
    rewrite (bind_val _ _ _ _ _ Ee). cbv beta.
    destruct (path_exists (fs w1) t).
    + rewrite fail_with_run. reflexivity.
    + destruct (open_write t "wb" (add_event (FsExists t) w1)) as [[k|r|e] w3] eqn:Eo.
      * rewrite (bind_val _ _ _ _ _ Eo). cbv beta.
        rewrite (bind_exc _ _ _ _ _ (lookup_global_json w3)). reflexivity.
      * rewrite (bind_ret _ _ _ _ _ Eo). reflexivity.
      * rewrite (bind_exc _ _ _ _ _ Eo). reflexivity.
  - left. exists e. split; [exact Hc|].
    rewrite (bind_exc _ _ _ _ _ Hc). reflexivity.
Qed.

Lemma open_write_no_ret p m w r w' : open_write p m w <> (Ret r, w').
Proof.
  unfold open_write, bind, emit. cbn -[resolve fs_lookup fs_is_dir].
  repeat match goal with |- context [match ?x with _ => _ end] => destruct x end;
    discriminate.
Qed.

(** C3 (code bug). [SvPresetFromGist.execute] never returns FINISHED: the
    module does not import [json], so once the target file has been opened
    for writing (created empty, or truncated), [json.dumps] raises NameError
    and nothing is written.  For instance, importing snippet "abc" as the new
    preset "foo" leaves an empty foo.json behind and raises. *)
Theorem from_gist_never_finishes :
  (forall w gid name, fst (SvPresetFromGist_execute gid name w) <> Val FINISHED)
  /\ fst (SvPresetFromGist_execute "abc" "foo" ex_w) = Exc (NameError "json")
  /\ fs_lookup ["data"; "sverchok"; "presets"; "foo.json"] (fs ex_w) = None
  /\ fs_lookup ["data"; "sverchok"; "presets"; "foo.json"]
       (fs (snd (SvPresetFromGist_execute "abc" "foo" ex_w))) = Some (File EmptyString).
Proof.
  split; [|vm_compute; repeat split].
  intros w gid name.
  destruct (String.eqb name EmptyString) eqn:E1.
  { unfold SvPresetFromGist_execute, call. rewrite E1. cbn. discriminate. }
  destruct (String.eqb gid EmptyString) eqn:E2.
  { unfold SvPresetFromGist_execute, call. rewrite E1, E2. cbn. discriminate. }
  apply String.eqb_neq in E1, E2.
  destruct (from_gist_run w gid name E1 E2) as (w1 & _ & _ & _ & [(e & _ & ->)|(_ & ->)]);
    [discriminate|].
  destruct (path_exists (fs w1) (preset_path w name)); [cbn; discriminate|].
  destruct (open_write (preset_path w name) "wb"
              (add_event (FsExists (preset_path w name)) w1)) as [[k|r|e] w3] eqn:Eo;
    cbn; try discriminate.
  exfalso. exact (open_write_no_ret _ _ _ _ _ Eo).
Qed.

Lemma open_write_frame p m w : frame w (snd (open_write p m w)).
Proof.
  unfold open_write, bind, emit. cbn -[resolve fs_lookup fs_is_dir].
  repeat match goal with |- context [match ?x with _ => _ end] => destruct x end;
    cbn [snd]; try apply frame_add_event;
    eapply frame_trans; (apply frame_add_event || apply frame_set_fs).
Qed.

(** C10. With both names given, [SvPresetFromGist.execute] fetches the
    snippet first: whatever the outcome, the first event it causes is the
    network fetch, and when it refuses the import because the target exists
    ([return CANCELLED]), the existence check of the target comes after that
    fetch. *)
Theorem from_gist_fetches_before_check (w : world) (gid name : string) :
  name <> EmptyString -> gid <> EmptyString ->
  let '(r, w') := SvPresetFromGist_execute gid name w in
  exists evs, events w' = (events w ++ NetFetch gid :: evs)%list
  /\ (r = Val CANCELLED -> In (FsExists (preset_path w name)) evs).
Proof.
  intros Hn Hg.
  destruct (from_gist_run w gid name Hn Hg) as (w1 & [[evs1 Hev] _] & _ & _ & H).
  cbn [events add_event] in Hev.
  destruct H as [(e & _ & ->)|(_ & ->)].
  { exists (FsExists (presets_dir w) :: evs1). split.
    - rewrite Hev. now rewrite <- !app_assoc.
    - discriminate. }
  destruct (path_exists (fs w1) (preset_path w name)).
  { exists (FsExists (presets_dir w) :: evs1 ++ [FsExists (preset_path w name)])%list. split.
    - cbn [events add_event add_report add_log]. rewrite Hev. now rewrite <- !app_assoc.
    - intros _. right. apply in_or_app. right. left. reflexivity. }
  destruct (open_write (preset_path w name) "wb"
              (add_event (FsExists (preset_path w name)) w1)) as [r3 w3] eqn:Eo.
  pose proof (open_write_frame (preset_path w name) "wb"
                (add_event (FsExists (preset_path w name)) w1)) as [[evs3 Hev3] _].
  rewrite Eo in Hev3. cbn [snd events add_event] in Hev3.
  exists (FsExists (presets_dir w) :: evs1 ++ FsExists (preset_path w name) :: evs3)%list.
  split.
  - rewrite Hev3, Hev. now rewrite <- !app_assoc.
  - destruct r3 as [k|r|e]; try discriminate.
    exfalso. exact (open_write_no_ret _ _ _ _ _ Eo).
Qed.

Lemma from_gist_fetches_before_check_witness :
  ("a" <> EmptyString /\ "abc" <> EmptyString)
  /\ let '(r, w') := SvPresetFromGist_execute "abc" "a" ex_w in
     exists evs, events w' = (events ex_w ++ NetFetch "abc" :: evs)%list
     /\ (r = Val CANCELLED -> In (FsExists (preset_path ex_w "a")) evs).
Proof.
  split; [split; discriminate|].
  apply (from_gist_fetches_before_check ex_w "abc" "a"); discriminate.
Defined.

(** ** Resolution in a growing file system *)

Lemma fs_is_dir_grows f f' k :
  fs_grows f f' -> fs_is_dir f k = true -> fs_is_dir f' k = true.
Proof.
  intros [Hk _]. destruct k as [|c k]; [reflexivity|]. cbn.
  destruct (fs_lookup (c :: k) f) as [[d|]|] eqn:E; try discriminate.
  now rewrite (Hk _ _ E).
Qed.

Lemma walk_grows f f' cur cs k :
  fs_grows f f' -> walk f cur cs = Some k -> walk f' cur cs = Some k.
Proof.
  intros Hg. revert cur. induction cs as [|c cs IH]; intros cur; cbn; [auto|].
  destruct (fs_is_dir f cur) eqn:E; [|discriminate].
  rewrite (fs_is_dir_grows _ _ _ Hg E). apply IH.
Qed.

Lemma resolve_grows f f' p k :
  fs_grows f f' -> resolve f p = Some k -> resolve f' p = Some k.
Proof. apply walk_grows. Qed.

Lemma fs_exists_grows f f' k :
  fs_grows f f' -> fs_exists f k = true -> fs_exists f' k = true.
Proof.
  intros [Hk _]. destruct k as [|c k]; [reflexivity|]. cbn.
  destruct (fs_lookup (c :: k) f) eqn:E; [|discriminate].
  now rewrite (Hk _ _ E).
Qed.

Lemma path_exists_grows f f' p :
  fs_grows f f' -> path_exists f p = true -> path_exists f' p = true.
Proof.
  unfold path_exists. intros Hg H. apply andb_true_iff in H as [H1 H2].
  rewrite H1. cbn.
  destruct (resolve f p) as [k|] eqn:E; [|discriminate].
  rewrite (resolve_grows _ _ _ _ Hg E). exact (fs_exists_grows _ _ _ Hg H2).
Qed.

Lemma str_app_nonempty a b : b <> EmptyString -> a ++ b <> EmptyString.
Proof. destruct a; cbn; [auto|discriminate]. Qed.

Lemma preset_path_nonempty w n : preset_path w n <> EmptyString.
Proof.
  assert (Hb : n ++ ".json" <> EmptyString) by (apply str_app_nonempty; discriminate).
  unfold preset_path, os_path_join.
  destruct (starts_with_char _ _); [exact Hb|].
  destruct (_ || _); apply str_app_nonempty; [exact Hb|discriminate].
Qed.

Lemma path_exists_of_file f p k d :
  p <> EmptyString -> resolve f p = Some k -> fs_lookup k f = Some (File d) ->
  path_exists f p = true.
Proof.
  intros Hp Hr Hl. unfold path_exists.
  rewrite (proj2 (String.eqb_neq _ _) Hp), Hr. cbn.
  destruct k; [reflexivity|]. cbn in Hl |- *. now rewrite Hl.
Qed.

(** ** C2: importing over an existing preset *)




(** ** C7: [SvSaveSelected] writes without checking *)

Lemma write_json_run d p k w :
  p <> EmptyString -> resolve (fs w) p = Some k -> k <> [] ->
  fs_lookup k (fs w) <> Some Dir -> fs_is_dir (fs w) (removelast k) = true ->
  write_json d p w
  = (Val tt, set_fs (fs_set k (File (json_dumps_sorted w d))
                       (fs_set k (File EmptyString) (fs w)))
               (add_event (FsOpen p "w") w)).
Proof.
  intros Hp Hr Hk Hd Hpar.
  unfold write_json, json_dumps, bind at 1. cbv beta.
  unfold open_write, bind, emit, handle_write.
  cbn -[resolve fs_lookup fs_is_dir fs_set].
  rewrite (eqb_empty_false _ Hp), Hr.
  destruct k as [|c k']; [congruence|].
  destruct (fs_lookup (c :: k') (fs w)) as [[x|]|] eqn:El; try congruence;
    rewrite Hpar; cbn -[fs_lookup fs_set]; rewrite fs_lookup_set, key_eqb_refl;
    reflexivity.
Qed.

Lemma existsb_filter_length {A} (f : A -> bool) l :
  existsb f l = true -> Nat.eqb (List.length (filter f l)) 0 = false.
Proof.
  induction l as [|x l IH]; cbn; [discriminate|].
  destruct (f x); cbn; auto.
Qed.





(** ** Keys along a resolved path *)










Lemma key_eqb_false k1 k2 : k1 <> k2 -> key_eqb k1 k2 = false.
Proof. intros H. destruct (key_eqb k1 k2) eqn:E; auto. now apply key_eqb_true in E. Qed.






(** ** C4: [SvRenamePreset] *)





(** ** C8: the listing of presets *)

Lemma presets_dir_shape w : exists X, presets_dir w = X ++ "presets".
Proof.
  unfold presets_dir, os_path_join. cbn [starts_with_char].
  change (Ascii.eqb "s" "/") with false. cbv iota.
  destruct (_ || _).
  - exists (datafiles_dir w ++ "sverchok/"). now rewrite str_app_assoc.
  - exists (datafiles_dir w ++ "/sverchok/"). now rewrite str_app_assoc.
Qed.

Lemma ends_with_slash_presets X : ends_with "/" (X ++ "presets") = false.
Proof.
  induction X as [|c X IH]; [reflexivity|]. cbn [append ends_with]. rewrite IH, orb_false_r.
  apply String.eqb_neq. intros H. injection H as _ H.
  exact (str_app_nonempty X "presets" ltac:(discriminate) H).
Qed.

Lemma split_after_last_slash_json s :
  split_after_last_slash (s ++ "/*.json") = (s ++ "/", "*.json").
Proof.
  induction s as [|c s IH]; [reflexivity|]. cbn [append split_after_last_slash].
  assert (Hh : has_char "/" (s ++ "/*.json") = true).
  { clear IH. induction s as [|d s IH']; [reflexivity|]. cbn. now rewrite IH', orb_true_r. }
  rewrite Hh, IH. reflexivity.
Qed.

Lemma all_char_slash_presets X : all_char "/" ((X ++ "presets") ++ "/") = false.
Proof. induction X as [|c X IH]; [reflexivity|]. cbn. now rewrite IH, andb_false_r. Qed.

Lemma rstrip_slash_presets X : rstrip_char "/" ((X ++ "presets") ++ "/") = X ++ "presets".
Proof.
  induction X as [|c X IH]; [reflexivity|]. cbn [append rstrip_char]. rewrite IH.
  assert (Hne : String.eqb (X ++ "presets") EmptyString = false)
    by (apply String.eqb_neq, str_app_nonempty; discriminate).
  now rewrite Hne.
Qed.

(** [os.path.split(join(presets, "*.json"))] gives back the presets
    directory and the pattern. *)
Lemma split_presets_pattern w :
  os_path_split (os_path_join (presets_dir w) "*.json") = (presets_dir w, "*.json").
Proof.
  destruct (presets_dir_shape w) as [X ->].
  unfold os_path_join. cbn [starts_with_char]. change (Ascii.eqb "*" "/") with false.
  cbv iota. rewrite ends_with_slash_presets.
  assert (Hne : String.eqb (X ++ "presets") EmptyString = false)
    by (apply String.eqb_neq, str_app_nonempty; discriminate).
  rewrite Hne. cbn [orb].
  change ("/" ++ "*.json") with "/*.json".
  unfold os_path_split. rewrite split_after_last_slash_json.
  rewrite all_char_slash_presets.
  assert (Hne' : String.eqb ((X ++ "presets") ++ "/") EmptyString = false)
    by (apply String.eqb_neq, str_app_nonempty; discriminate).
  rewrite Hne'. cbn [negb andb]. now rewrite rstrip_slash_presets.
Qed.

Lemma fnmatch_literal pat s :
  has_char "*" pat = false -> has_char "?" pat = false -> fnmatch pat s = String.eqb s pat.
Proof.
  revert s. induction pat as [|c pat IH]; intros s H1 H2.
  - destruct s; reflexivity.
  - cbn [has_char] in H1, H2. apply orb_false_iff in H1 as [H1 H1'].
    apply orb_false_iff in H2 as [H2 H2'].
    cbn [fnmatch]. rewrite H1.
    destruct s as [|d s]; [reflexivity|].
    rewrite H2. cbn [orb]. rewrite (IH s H1' H2').
    cbn [String.eqb]. now rewrite Ascii.eqb_sym.
Qed.

Lemma fnmatch_star_unfold pat s :
  fnmatch (String "*" pat) s
  = fnmatch pat s || match s with
                     | EmptyString => false
                     | String _ s' => fnmatch (String "*" pat) s'
                     end.
Proof. destruct s; reflexivity. Qed.

(** the pattern [*.json] matches the names that end with [.json] *)
Lemma fnmatch_star_json s : fnmatch "*.json" s = ends_with ".json" s.
Proof.
  induction s as [|c s IH]; [reflexivity|].
  rewrite fnmatch_star_unfold, fnmatch_literal by reflexivity.
  cbn [ends_with]. now rewrite IH.
Qed.

Lemma get_presets_loop_run ps w :
  (fix loop (ps : list string) : M (list SvPreset) :=
     match ps with
     | [] => ret []
     | p :: ps' => o <- SvPreset_init None (Some p);;
                   os <- loop ps';;
                   ret (o :: os)
     end) ps w = (Val (map (fun p => mk_preset None (Some p)) ps), w).
Proof.
  revert w. induction ps as [|p ps IH]; intros w; [reflexivity|].
  cbn [SvPreset_init]. unfold bind at 1. cbn [ret]. cbv beta iota.
  unfold bind at 1. rewrite IH. reflexivity.
Qed.




(** ** C9: the properties of [SvPreset] *)

Lemma get_preset_path_val_or_exc n w :
  exists w1, datafiles_dir w1 = datafiles_dir w
  /\ (get_preset_path n w = (Val (preset_path w n), w1)
      \/ exists e, get_preset_path n w = (Exc e, w1)).
Proof.
  destruct (get_preset_path_cases n w) as (w1 & Hc & Hf & _).
  exists w1. split; [|exact Hc].
  destruct Hf as (_ & _ & _ & _ & _ & _ & Hd & _). exact Hd.
Qed.

Lemma preset_path_same_dir w w' n :
  datafiles_dir w' = datafiles_dir w -> preset_path w' n = preset_path w n.
Proof. intros H. unfold preset_path, presets_dir. now rewrite H. Qed.

Lemma obs_path_same_dir w w' o :
  datafiles_dir w' = datafiles_dir w -> obs_path w' o = obs_path w o.
Proof.
  intros H. unfold obs_path. destruct (_path o); [reflexivity|].
  destruct (_name o); cbn; [now rewrite (preset_path_same_dir _ _ _ H)|reflexivity].
Qed.

Lemma run_op_step op o w o1 w1 :
  run_op op (o, w) = (Val tt, (o1, w1)) ->
  datafiles_dir w1 = datafiles_dir w
  /\ (obs_name o1, obs_path w1 o1) = step_obs w op (obs_name o, obs_path w o).
Proof.
  destruct o as [nm pth].
  destruct op as [| |n|p]; cbn [run_op step_obs].
  - unfold SvPreset_get_name, bind, get_self, put_self, ret, raise. cbn.
    destruct nm as [n|]; [intros H; injection H as <- <-; split; reflexivity|].
    destruct pth as [p|]; [|discriminate].
    intros H. injection H as <- <-. split; reflexivity.
  - unfold SvPreset_get_path, bind, get_self, put_self, ret, raise, lift. cbn.
    destruct pth as [p|]; [intros H; injection H as <- <-; split; reflexivity|].
    destruct nm as [n|]; [|discriminate].
    destruct (get_preset_path_val_or_exc n w) as (w2 & Hd & [E|[e E]]);
      rewrite E; cbn; [|discriminate].
    intros H. injection H as <- <-. split; [exact Hd|].
    unfold obs_name, obs_path. cbn. reflexivity.
  - unfold SvPreset_set_name, bind, get_self, put_self, lift. cbn.
    destruct (get_preset_path_val_or_exc n w) as (w2 & Hd & [E|[e E]]);
      rewrite E; cbn; [|discriminate].
    intros H. injection H as <- <-. split; [exact Hd|reflexivity].
  - unfold SvPreset_set_path, put_self. cbn.
    intros H. injection H as <- <-. split; reflexivity.
Qed.

Lemma step_obs_same_dir w w' op cur :
  datafiles_dir w' = datafiles_dir w -> step_obs w' op cur = step_obs w op cur.
Proof.
  intros H. destruct op; cbn; try reflexivity. now rewrite (preset_path_same_dir _ _ _ H).
Qed.

Lemma fold_step_same_dir w w' ops cur :
  datafiles_dir w' = datafiles_dir w ->
  fold_left (fun c op => step_obs w' op c) ops cur
  = fold_left (fun c op => step_obs w op c) ops cur.
Proof.
  intros H. revert cur. induction ops as [|op ops IH]; intros cur; [reflexivity|].
  cbn. rewrite (step_obs_same_dir _ _ _ _ H). apply IH.
Qed.

Lemma fold_getters w gets cur :
  Forall is_getter gets -> fold_left (fun c op => step_obs w op c) gets cur = cur.
Proof.
  intros H. revert cur. induction H as [|op gets Hop _ IH]; intros cur; [reflexivity|].
  cbn. destruct op; try contradiction; apply IH.
Qed.

Lemma run_ops_obs ops o w o' w' :
  run_ops ops (o, w) = (Val tt, (o', w')) ->
  datafiles_dir w' = datafiles_dir w
  /\ (obs_name o', obs_path w' o')
     = fold_left (fun c op => step_obs w op c) ops (obs_name o, obs_path w o).
Proof.
  revert o w. induction ops as [|op ops IH]; intros o w H.
  - injection H as <- <-. split; reflexivity.
  - cbn [run_ops] in H. unfold bind at 1 in H.
    destruct (run_op op (o, w)) as [[[]|r|e] [o1 w1]] eqn:E; try discriminate.
    destruct (run_op_step _ _ _ _ _ E) as [Hd1 Hs1].
    destruct (IH _ _ H) as [Hd2 Hs2].
    split; [congruence|].
    rewrite Hs2, Hs1, (fold_step_same_dir _ _ _ _ Hd1). reflexivity.
Qed.

(** C9 (amended). The two properties read what the object stores, and the
    missing one is derived: the name of a preset made from a path [p] alone
    reads [stem p] (its base name without extension), and the path of a
    preset made from a name [n] alone reads [get_preset_path(n)].  After any
    successful sequence of reads and assignments, what the properties read is
    fixed by the last assignment: after [name = n] they read [n] and
    [get_preset_path(n)], after [path = p] they read [stem p] and [p], and
    reads alone change nothing.  A derived value is cached: the first read
    of the name of a path-only preset stores [stem p] as its name, and the
    first read of the path of a name-only preset stores the path
    [get_preset_path(n)] returned.  A preset constructed from both a name and
    a path keeps both as given, consistent or not, and reads them back
    unchanged. *)
Theorem preset_properties_spec :
  (forall o w n o' w', SvPreset_get_name (o, w) = (Val n, (o', w')) ->
     obs_name o = Some n /\ obs_name o' = Some n)
  /\ (forall o w p o' w', SvPreset_get_path (o, w) = (Val p, (o', w')) ->
     obs_path w o = Some p /\ obs_path w' o' = Some p)
  /\ (forall p w o w', SvPreset_init None (Some p) w = (Val o, w') ->
     obs_name o = Some (stem p) /\ obs_path w' o = Some p)
  /\ (forall n w o w', SvPreset_init (Some n) None w = (Val o, w') ->
     obs_name o = Some n /\ obs_path w' o = Some (preset_path w n))
  /\ (forall pre n gets o w o' w', Forall is_getter gets ->
     run_ops (pre ++ PSetName n :: gets) (o, w) = (Val tt, (o', w')) ->
     obs_name o' = Some n /\ obs_path w' o' = Some (preset_path w n))
  /\ (forall pre p gets o w o' w', Forall is_getter gets ->
     run_ops (pre ++ PSetPath p :: gets) (o, w) = (Val tt, (o', w')) ->
     obs_name o' = Some (stem p) /\ obs_path w' o' = Some p)
  /\ (forall gets o w o' w', Forall is_getter gets ->
     run_ops gets (o, w) = (Val tt, (o', w')) ->
     obs_name o' = obs_name o /\ obs_path w' o' = obs_path w o)
  /\ (forall p w, SvPreset_get_name (mk_preset None (Some p), w)
                  = (Val (stem p), (mk_preset (Some (stem p)) (Some p), w)))
  /\ (forall n w p w', get_preset_path n w = (Val p, w') ->
     SvPreset_get_path (mk_preset (Some n) None, w)
     = (Val p, (mk_preset (Some n) (Some p), w')))
  /\ (forall n p w, let o := mk_preset (Some n) (Some p) in
     SvPreset_init (Some n) (Some p) w = (Val o, w)
     /\ SvPreset_get_name (o, w) = (Val n, (o, w))
     /\ SvPreset_get_path (o, w) = (Val p, (o, w))).
Proof.
  split; [|split; [|split; [|split; [|split; [|split; [|split; [|split; [|split]]]]]]]].
  8:{ intros p w. reflexivity. }
  8:{ intros n w p w' H.
      unfold SvPreset_get_path, bind, get_self, put_self, ret, lift. cbn.
      rewrite H. reflexivity. }
  8:{ intros n p w o. split; [|split]; reflexivity. }
  - intros o w n o' w' H.
    unfold SvPreset_get_name, bind, get_self, put_self, ret, raise in H.
    destruct o as [[nm|] [p|]]; cbn in H; try discriminate;
      injection H as <- <- <-; split; reflexivity.
  - intros o w p o' w' H.
    unfold SvPreset_get_path, bind, get_self, put_self, ret, raise, lift in H.
    destruct o as [nm [q|]]; cbn in H.
    { injection H as <- <- <-. split; reflexivity. }
    destruct nm as [n|]; [|discriminate].
    destruct (get_preset_path_val_or_exc n w) as (w2 & Hd & [E|[e E]]);
      rewrite E in H; cbn in H; [|discriminate].
    injection H as <- <- <-. split; reflexivity.
  - intros p w o w' H. injection H as <- <-. split; reflexivity.
  - intros n w o w' H. injection H as <- <-. split; reflexivity.
  - intros pre n gets o w o' w' Hg H.
    destruct (run_ops_obs _ _ _ _ _ H) as [Hd Hs].
    rewrite fold_left_app in Hs. cbn [fold_left] in Hs.
    rewrite fold_getters in Hs by exact Hg. cbn [step_obs] in Hs.
    injection Hs as -> ->. split; reflexivity.
  - intros pre p gets o w o' w' Hg H.
    destruct (run_ops_obs _ _ _ _ _ H) as [Hd Hs].
    rewrite fold_left_app in Hs. cbn [fold_left] in Hs.
    rewrite fold_getters in Hs by exact Hg. cbn [step_obs] in Hs.
    injection Hs as -> ->. split; reflexivity.
  - intros gets o w o' w' Hg H.
    destruct (run_ops_obs _ _ _ _ _ H) as [Hd Hs].
    rewrite fold_getters in Hs by exact Hg.
    injection Hs as -> ->. split; reflexivity.
Qed.

Lemma preset_properties_spec_witness :
  Forall is_getter [PGetPath; PGetName]
  /\ run_ops [PSetPath "/x/b.json"; PSetName "c"; PGetPath; PGetName]
       (mk_preset None (Some "/x/b.json"), ex_w)
     = (Val tt, (mk_preset (Some "c") (Some "/data/sverchok/presets/c.json"),
                 add_event (FsExists "/data/sverchok/presets") ex_w))
  /\ obs_name (mk_preset (Some "c") (Some "/data/sverchok/presets/c.json")) = Some "c"
  /\ obs_path (add_event (FsExists "/data/sverchok/presets") ex_w)
       (mk_preset (Some "c") (Some "/data/sverchok/presets/c.json"))
     = Some (preset_path ex_w "c").
Proof.
  assert (Hg : Forall is_getter [PGetPath; PGetName])
    by (repeat constructor).
  assert (E : run_ops [PSetPath "/x/b.json"; PSetName "c"; PGetPath; PGetName]
                (mk_preset None (Some "/x/b.json"), ex_w)
              = (Val tt, (mk_preset (Some "c") (Some "/data/sverchok/presets/c.json"),
                          add_event (FsExists "/data/sverchok/presets") ex_w)))
    by (vm_compute; reflexivity).
  split; [exact Hg|]. split; [exact E|].
  exact (proj1 (proj2 (proj2 (proj2 (proj2 preset_properties_spec)))) [PSetPath "/x/b.json"] "c"
           [PGetPath; PGetName] _ _ _ _ Hg E).
Defined.

(** C9, counterexample: a preset constructed from the name "a" and the path
    /x/b.json reads the name "a", not the stem "b" of its path. *)
Lemma preset_name_path_inconsistent :
  SvPreset_init (Some "a") (Some "/x/b.json") ex_w
    = (Val (mk_preset (Some "a") (Some "/x/b.json")), ex_w)
  /\ fst (SvPreset_get_name (mk_preset (Some "a") (Some "/x/b.json"), ex_w)) = Val "a"
  /\ fst (SvPreset_get_path (mk_preset (Some "a") (Some "/x/b.json"), ex_w)) = Val "/x/b.json"
  /\ stem "/x/b.json" = "b".
Proof. vm_compute. repeat split. Qed.

(** * More of the module *)

(** ** Paths below a directory *)

Lemma split_on_nonempty c s : split_on c s <> [].
Proof. destruct s as [|a s]; cbn; [discriminate|]. destruct (split_on c s); [discriminate|].
  destruct (Ascii.eqb a c); discriminate. Qed.

Lemma split_on_app c a b :
  split_on c (a ++ String c b) = (split_on c a ++ split_on c b)%list.
Proof.
  induction a as [|x a IH]; cbn [append split_on].
  - rewrite Ascii.eqb_refl. destruct (split_on c b) eqn:E; [now apply split_on_nonempty in E|].
    reflexivity.
  - rewrite IH. destruct (split_on c a) as [|y ys] eqn:E; [now apply split_on_nonempty in E|].
    cbn. destruct (Ascii.eqb x c); reflexivity.
Qed.

Lemma split_on_no_char c b : has_char c b = false -> split_on c b = [b].
Proof.
  induction b as [|x b IH]; cbn; [reflexivity|].
  intros H. apply orb_false_iff in H as [H1 H2]. rewrite (IH H2), H1. reflexivity.
Qed.

Lemma walk_app f cur cs1 cs2 :
  walk f cur (cs1 ++ cs2) = match walk f cur cs1 with Some k => walk f k cs2 | None => None end.
Proof.
  revert cur. induction cs1 as [|c cs IH]; intros cur; cbn; [reflexivity|].
  destruct (fs_is_dir f cur); [apply IH|reflexivity].
Qed.

(** A name without '/' joined to a directory resolves one level below it. *)
Lemma resolve_join_name f P kP b :
  resolve f P = Some kP -> fs_is_dir f kP = true ->
  P <> EmptyString -> ends_with "/" P = false ->
  has_char "/" b = false -> b <> EmptyString -> b <> "." -> b <> ".." ->
  resolve f (os_path_join P b) = Some (kP ++ [b])%list.
Proof.
  intros Hr Hd HP He Hb Hb0 Hb1 Hb2.
  assert (Hs : starts_with_char "/" b = false).
  { destruct b as [|x b]; [congruence|]. cbn in Hb |- *.
    apply orb_false_iff in Hb as [Hb _]. exact Hb. }
  unfold os_path_join. rewrite Hs, (proj2 (String.eqb_neq _ _) HP), He. cbn [orb].
  unfold resolve. change ("/" ++ b) with (String "/" b).
  rewrite split_on_app, walk_app. fold (resolve f P). rewrite Hr, split_on_no_char by exact Hb.
  cbn. rewrite Hd. unfold norm_step.
  rewrite (proj2 (String.eqb_neq _ _) Hb0), (proj2 (String.eqb_neq _ _) Hb1),
    (proj2 (String.eqb_neq _ _) Hb2). reflexivity.
Qed.

Lemma json_name_ok n :
  n ++ ".json" <> EmptyString /\ n ++ ".json" <> "." /\ n ++ ".json" <> "..".
Proof.
  destruct n as [|a [|b n]]; cbn; repeat split; try discriminate;
    intros H; injection H; intros; subst; try discriminate.
  destruct n; discriminate.
Qed.

Lemma has_char_app c a b : has_char c (a ++ b) = has_char c a || has_char c b.
Proof. induction a as [|x a IH]; cbn; [reflexivity|]. now rewrite IH, orb_assoc. Qed.

Lemma presets_dir_ok w :
  presets_dir w <> EmptyString /\ ends_with "/" (presets_dir w) = false.
Proof.
  destruct (presets_dir_shape w) as [X ->]. split.
  - apply str_app_nonempty. discriminate.
  - apply ends_with_slash_presets.
Qed.

(** The preset file of a plain name lies directly in the presets directory. *)
Lemma preset_path_resolve w n kP :
  resolve (fs w) (presets_dir w) = Some kP -> fs_is_dir (fs w) kP = true ->
  has_char "/" n = false ->
  resolve (fs w) (preset_path w n) = Some (kP ++ [(n ++ ".json")%string])%list.
Proof.
  intros Hr Hd Hn. destruct (presets_dir_ok w) as [H1 H2].
  destruct (json_name_ok n) as (H3 & H4 & H5).
  apply resolve_join_name; auto. now rewrite has_char_app, Hn.
Qed.

Lemma basename_app_slash a b : has_char "/" b = false -> basename (a ++ String "/" b) = b.
Proof.
  intros Hb. induction a as [|x a IH]; cbn [append basename].
  - rewrite Hb, Ascii.eqb_refl. reflexivity.
  - rewrite has_char_app. cbn [has_char]. rewrite Ascii.eqb_refl, orb_true_r. exact IH.
Qed.

Lemma basename_preset_path w n : has_char "/" n = false -> basename (preset_path w n) = n ++ ".json".
Proof.
  intros Hn. destruct (presets_dir_ok w) as [H1 H2].
  assert (Hs : starts_with_char "/" (n ++ ".json") = false).
  { destruct n as [|x n]; [reflexivity|]. cbn in Hn |- *. now apply orb_false_iff in Hn as [-> _]. }
  unfold preset_path, os_path_join. rewrite Hs, (proj2 (String.eqb_neq _ _) H1), H2.
  cbn [orb]. apply basename_app_slash. now rewrite has_char_app, Hn.
Qed.

Lemma path_exists_of_dir f p k :
  p <> EmptyString -> resolve f p = Some k -> fs_is_dir f k = true -> path_exists f p = true.
Proof.
  intros Hp Hr Hd. unfold path_exists. rewrite (proj2 (String.eqb_neq _ _) Hp), Hr. cbn.
  destruct k as [|c k]; [reflexivity|]. cbn in Hd |- *.
  destruct (fs_lookup (c :: k) f) as [[]|]; congruence.
Qed.

(** ** [SvDeletePreset] *)

Lemma os_remove_file p k d w :
  p <> EmptyString -> resolve (fs w) p = Some k -> k <> [] ->
  fs_lookup k (fs w) = Some (File d) ->
  os_remove p w = (Val tt, set_fs (fs_remove k (fs w)) (add_event (FsRemove p) w)).
Proof.
  intros Hp Hr Hk Hl. unfold os_remove, bind, emit. cbv beta.
  change (fs (add_event (FsRemove p) w)) with (fs w).
  rewrite (eqb_empty_false _ Hp), Hr.
  destruct k as [|c k]; [congruence|]. now rewrite Hl.
Qed.

Lemma os_remove_missing p w :
  path_exists (fs w) p = false ->
  exists e, os_remove p w = (Exc e, add_event (FsRemove p) w).
Proof.
  unfold path_exists, os_remove, bind, emit. intros H. cbv beta.
  change (fs (add_event (FsRemove p) w)) with (fs w).
  destruct (String.eqb p EmptyString); [eauto|]. cbn [negb andb] in H.
  destruct (resolve (fs w) p) as [[|c k]|]; [discriminate|..|eauto].
  cbn in H. destruct (fs_lookup (c :: k) (fs w)) as [[]|]; eauto; discriminate.
Qed.

Lemma get_preset_path_run n w :
  path_exists (fs w) (presets_dir w) = true ->
  get_preset_path n w = (Val (preset_path w n), add_event (FsExists (presets_dir w)) w).
Proof.
  intros H. destruct (get_preset_path_cases n w) as (w1 & _ & _ & _ & Hx).
  destruct (Hx H) as [-> Hg]. exact Hg.
Qed.



(** X2. Deleting a preset that is not there.  When the presets directory
    exists but no file or directory is at the preset's path,
    [SvDeletePreset.execute] raises (os.remove's error is not caught), the
    file system is unchanged and nothing is reported. *)
Theorem delete_missing_preset_raises w name :
  name <> EmptyString -> path_exists (fs w) (presets_dir w) = true ->
  path_exists (fs w) (preset_path w name) = false ->
  let (r, w') := SvDeletePreset_execute name w in
  (exists e, r = Exc e) /\ fs w' = fs w /\ reports w' = reports w.
Proof.
  intros Hn H0 Hm.
  destruct (SvDeletePreset_execute name w) as [r w'] eqn:E.
  unfold SvDeletePreset_execute, call in E. rewrite (eqb_empty_false _ Hn) in E.
  rewrite (bind_val _ _ _ _ _ (get_preset_path_run name w H0)) in E. cbv beta in E.
  destruct (os_remove_missing (preset_path w name) (add_event (FsExists (presets_dir w)) w) Hm)
    as [e He].
  rewrite (bind_exc _ _ _ _ _ He) in E. injection E as <- <-.
  split; [eauto|split; reflexivity].
Qed.

Lemma delete_missing_preset_raises_witness :
  let (r, w') := SvDeletePreset_execute "zz" ex_w in
  (exists e, r = Exc e) /\ fs w' = fs ex_w /\ reports w' = reports ex_w.
Proof.
  apply delete_missing_preset_raises; try discriminate; vm_compute; reflexivity.
Defined.

(** ** [shutil.copy] *)

Lemma open_read_file p k d w :
  p <> EmptyString -> resolve (fs w) p = Some k -> k <> [] ->
  fs_lookup k (fs w) = Some (File d) ->
  open_read p w = (Val k, add_event (FsOpen p "rb") w).
Proof.
  intros Hp Hr Hk Hl. unfold open_read, bind, emit. cbn -[resolve fs_lookup].
  rewrite (eqb_empty_false _ Hp). cbn [fs add_event]. rewrite Hr.
  destruct k as [|c k]; [congruence|]. now rewrite Hl.
Qed.

Lemma open_read_missing p w :
  path_exists (fs w) p = false ->
  exists e, open_read p w = (Exc e, add_event (FsOpen p "rb") w).
Proof.
  unfold path_exists. intros H. unfold open_read, bind, emit. cbn -[resolve fs_lookup].
  destruct (String.eqb p EmptyString); [eauto|]. cbn [negb andb] in H. cbn [fs add_event].
  destruct (resolve (fs w) p) as [[|c k]|]; [discriminate|..|eauto].
  cbn in H. destruct (fs_lookup (c :: k) (fs w)) as [[]|]; eauto; discriminate.
Qed.

Lemma open_write_run p m k w :
  p <> EmptyString -> resolve (fs w) p = Some k -> k <> [] ->
  fs_lookup k (fs w) <> Some Dir -> fs_is_dir (fs w) (removelast k) = true ->
  open_write p m w
  = (Val k, set_fs (fs_set k (File EmptyString) (fs w)) (add_event (FsOpen p m) w)).
Proof.
  intros Hp Hr Hk Hd Hpar. unfold open_write, bind, emit. cbn -[resolve fs_lookup fs_is_dir fs_set].
  rewrite (eqb_empty_false _ Hp). cbn [fs add_event]. rewrite Hr.
  destruct k as [|c k]; [congruence|].
  destruct (fs_lookup (c :: k) (fs w)) as [[x|]|]; try congruence; rewrite Hpar; reflexivity.
Qed.

Lemma stat_key_exists f p k :
  path_exists f p = true -> resolve f p = Some k -> stat_key f p = Some k.
Proof.
  unfold path_exists, stat_key. intros H Hr. rewrite Hr in H |- *.
  destruct (String.eqb p EmptyString); [discriminate|]. cbn in H. now rewrite H.
Qed.

Lemma stat_key_missing f p : path_exists f p = false -> stat_key f p = None.
Proof.
  unfold path_exists, stat_key. intros H.
  destruct (String.eqb p EmptyString); [reflexivity|]. cbn in H.
  destruct (resolve f p); [now rewrite H|reflexivity].
Qed.

Lemma stat_key_some f p k : stat_key f p = Some k -> resolve f p = Some k.
Proof.
  unfold stat_key. destruct (String.eqb p EmptyString); [discriminate|].
  destruct (resolve f p); [|discriminate]. destruct (fs_exists f l); congruence.
Qed.

Lemma samefile_distinct f src dst ks kt d :
  src <> EmptyString -> resolve f src = Some ks -> fs_lookup ks f = Some (File d) ->
  resolve f dst = Some kt -> kt <> ks -> shutil_samefile f src dst = false.
Proof.
  intros Hs Hr Hl Hrt Hne. unfold shutil_samefile.
  rewrite (stat_key_exists f src ks (path_exists_of_file _ _ _ _ Hs Hr Hl) Hr).
  destruct (stat_key f dst) as [k2|] eqn:E2; [|reflexivity].
  apply stat_key_some in E2. rewrite Hrt in E2. injection E2 as <-.
  apply key_eqb_false. congruence.
Qed.

Lemma shutil_copyfile_run src dst ks kt d w :
  src <> EmptyString -> dst <> EmptyString ->
  resolve (fs w) src = Some ks -> ks <> [] -> fs_lookup ks (fs w) = Some (File d) ->
  resolve (fs w) dst = Some kt -> kt <> [] -> fs_lookup kt (fs w) <> Some Dir ->
  fs_is_dir (fs w) (removelast kt) = true -> kt <> ks ->
  shutil_copyfile src dst w
  = (Val tt, set_fs (fs_set kt (File d) (fs_set kt (File EmptyString) (fs w)))
               (add_event (FsOpen dst "wb") (add_event (FsOpen src "rb") w))).
Proof.
  intros Hs Hd Hrs Hks Hls Hrt Hkt Hlt Hpar Hne.
  assert (Hq : fs_query (fun f => shutil_samefile f src dst) w = (Val false, w)).
  { unfold fs_query. now rewrite (samefile_distinct _ _ _ ks kt d Hs Hrs Hls Hrt Hne). }
  unfold shutil_copyfile. rewrite (bind_val _ _ _ _ _ Hq). cbv beta iota.
  rewrite (bind_val _ _ _ _ _ (open_read_file _ _ _ w Hs Hrs Hks Hls)). cbv beta.
  rewrite (bind_val _ _ _ _ _
    (open_write_run dst "wb" kt (add_event (FsOpen src "rb") w) Hd Hrt Hkt Hlt Hpar)).
  cbv beta. unfold bind, handle_read, handle_write. cbn [fs set_fs add_event].
  rewrite fs_lookup_set, (key_eqb_false ks kt) by congruence. rewrite Hls.
  unfold set_fs at 1 2 3. cbn [fs]. rewrite fs_lookup_set, key_eqb_refl. reflexivity.
Qed.

(** The target [shutil.copy] writes to. *)
Lemma shutil_copy_run src dst ks kt d w :
  let dst' := if os_path_isdir (fs w) dst then os_path_join dst (basename src) else dst in
  src <> EmptyString -> dst' <> EmptyString ->
  resolve (fs w) src = Some ks -> ks <> [] -> fs_lookup ks (fs w) = Some (File d) ->
  resolve (fs w) dst' = Some kt -> kt <> [] -> fs_lookup kt (fs w) <> Some Dir ->
  fs_is_dir (fs w) (removelast kt) = true -> kt <> ks ->
  shutil_copy src dst w
  = (Val dst', set_fs (fs_set kt (File d) (fs_set kt (File EmptyString) (fs w)))
                 (add_event (FsOpen dst' "wb") (add_event (FsOpen src "rb") w))).
Proof.
  intros dst' Hs Hd Hrs Hks Hls Hrt Hkt Hlt Hpar Hne.
  unfold shutil_copy. rewrite (bind_val _ _ _ _ _ (eq_refl : fs_query _ w = (Val _, w))).
  cbv beta. fold dst'.
  rewrite (bind_val _ _ _ _ _ (shutil_copyfile_run _ _ _ _ _ w Hs Hd Hrs Hks Hls Hrt Hkt Hlt Hpar Hne)).
  reflexivity.
Qed.

Lemma shutil_copyfile_same src dst w :
  shutil_samefile (fs w) src dst = true -> shutil_copyfile src dst w = (Exc (OSError src), w).
Proof.
  intros H. unfold shutil_copyfile.
  rewrite (bind_val _ _ _ _ _ (eq_refl : fs_query _ w = (Val _, w))). cbv beta.
  rewrite H. reflexivity.
Qed.

Lemma shutil_copyfile_missing_src src dst w :
  path_exists (fs w) src = false ->
  exists e, shutil_copyfile src dst w = (Exc e, add_event (FsOpen src "rb") w).
Proof.
  intros H. destruct (open_read_missing src w H) as [e He]. exists e.
  unfold shutil_copyfile.
  rewrite (bind_val _ _ _ _ _ (eq_refl : fs_query _ w = (Val _, w))). cbv beta.
  unfold shutil_samefile at 1. rewrite (stat_key_missing _ _ H). cbv iota.
  exact (bind_exc _ _ _ _ _ He).
Qed.

Lemma shutil_copy_same src dst w :
  let dst' := if os_path_isdir (fs w) dst then os_path_join dst (basename src) else dst in
  shutil_samefile (fs w) src dst' = true ->
  shutil_copy src dst w = (Exc (OSError src), w).
Proof.
  intros dst' H. unfold shutil_copy. rewrite (bind_val _ _ _ _ _ (eq_refl : fs_query _ w = (Val _, w))).
  cbv beta. fold dst'. exact (bind_exc _ _ _ _ _ (shutil_copyfile_same _ _ _ H)).
Qed.

Lemma shutil_copy_missing_src src dst w :
  path_exists (fs w) src = false ->
  exists e, shutil_copy src dst w = (Exc e, add_event (FsOpen src "rb") w).
Proof.
  intros H. unfold shutil_copy. rewrite (bind_val _ _ _ _ _ (eq_refl : fs_query _ w = (Val _, w))).
  cbv beta. destruct (shutil_copyfile_missing_src src
    (if os_path_isdir (fs w) dst then os_path_join dst (basename src) else dst) w H) as [e He].
  exists e. exact (bind_exc _ _ _ _ _ He).
Qed.

(** ** Writing a file keeps every directory, so every path resolves as before *)

Lemma fs_is_dir_set_file f k x k' :
  fs_lookup k f <> Some Dir -> fs_is_dir (fs_set k (File x) f) k' = fs_is_dir f k'.
Proof.
  intros Hk. destruct k' as [|c k']; [reflexivity|]. cbn [fs_is_dir].
  rewrite fs_lookup_set. destruct (key_eqb (c :: k') k) eqn:E; [|reflexivity].
  apply key_eqb_true in E. rewrite <- E in Hk.
  destruct (fs_lookup (c :: k') f) as [[]|]; congruence.
Qed.

Lemma walk_same_dirs f f' cur cs :
  (forall k, fs_is_dir f' k = fs_is_dir f k) -> walk f' cur cs = walk f cur cs.
Proof.
  intros H. revert cur. induction cs as [|c cs IH]; intros cur; cbn; [reflexivity|].
  rewrite H. destruct (fs_is_dir f cur); [apply IH|reflexivity].
Qed.

Lemma resolve_same_dirs f f' p :
  (forall k, fs_is_dir f' k = fs_is_dir f k) -> resolve f' p = resolve f p.
Proof. apply walk_same_dirs. Qed.

Lemma join_nonempty a b : b <> EmptyString -> os_path_join a b <> EmptyString.
Proof.
  intros Hb. unfold os_path_join.
  destruct (starts_with_char _ _); [exact Hb|].
  destruct (_ || _); apply str_app_nonempty; [exact Hb|discriminate].
Qed.

Lemma app_single_nonempty {A} (l : list A) x : (l ++ [x])%list <> [].
Proof. destruct l; discriminate. Qed.

Lemma removelast_app_single {A} (l : list A) x : removelast (l ++ [x])%list = l.
Proof. rewrite removelast_app by discriminate. apply app_nil_r. Qed.

Lemma isdir_file_target f p k :
  resolve f p = Some k -> k <> [] -> fs_lookup k f <> Some Dir -> os_path_isdir f p = false.
Proof.
  intros Hr Hk Hd. unfold os_path_isdir.
  destruct (stat_key f p) as [k'|] eqn:E; [|reflexivity].
  apply stat_key_some in E. rewrite Hr in E. injection E as <-.
  destruct k as [|c k]; [congruence|]. cbn.
  destruct (fs_lookup (c :: k) f) as [[]|]; congruence.
Qed.

(** ** [SvPresetToFile] and [SvPresetFromFile] *)

Lemma to_file_run w name fp kP d dst kt :
  name <> EmptyString -> fp <> EmptyString -> has_char "/" name = false ->
  resolve (fs w) (presets_dir w) = Some kP -> fs_is_dir (fs w) kP = true ->
  fs_lookup (kP ++ [(name ++ ".json")%string])%list (fs w) = Some (File d) ->
  (if os_path_isdir (fs w) fp then os_path_join fp (name ++ ".json") else fp) = dst ->
  resolve (fs w) dst = Some kt -> kt <> [] -> fs_lookup kt (fs w) <> Some Dir ->
  fs_is_dir (fs w) (removelast kt) = true -> kt <> (kP ++ [(name ++ ".json")%string])%list ->
  let msg := ("Saved `" ++ name ++ "' as `" ++ fp ++ "'")%string in
  SvPresetToFile_execute name fp w
  = (Val FINISHED,
     add_report ("INFO", msg) (add_log ("info", msg)
       (set_fs (fs_set kt (File d) (fs_set kt (File EmptyString) (fs w)))
          (add_event (FsOpen dst "wb") (add_event (FsOpen (preset_path w name) "rb")
             (add_event (FsExists (presets_dir w)) w)))))).
Proof.
  intros Hn Hfp Hc HrP HdP Hl Hdst Hrt Hkt Hlt Hpar Hne msg.
  destruct (presets_dir_ok w) as [HP _].
  unfold SvPresetToFile_execute, call.
  rewrite (eqb_empty_false _ Hn), (eqb_empty_false _ Hfp).
  rewrite (bind_val _ _ _ _ _ (get_preset_path_run name w (path_exists_of_dir _ _ _ HP HrP HdP))).
  cbv beta.
  pose proof (shutil_copy_run (preset_path w name) fp (kP ++ [(name ++ ".json")%string])%list kt d
    (add_event (FsExists (presets_dir w)) w)) as Hcp.
  cbv zeta in Hcp. change (fs (add_event ?e w)) with (fs w) in Hcp.
  rewrite (basename_preset_path w name Hc), Hdst in Hcp.
  assert (Hd : dst <> EmptyString).
  { rewrite <- Hdst. destruct (os_path_isdir (fs w) fp); [|exact Hfp].
    apply join_nonempty, str_app_nonempty. discriminate. }
  rewrite (bind_val _ _ _ _ _ (Hcp (preset_path_nonempty w name) Hd
    (preset_path_resolve w name kP HrP HdP Hc) (app_single_nonempty _ _) Hl
    Hrt Hkt Hlt Hpar Hne)).
  reflexivity.
Qed.

Lemma from_file_run w name fp kP ks d :
  name <> EmptyString -> fp <> EmptyString -> has_char "/" name = false ->
  resolve (fs w) (presets_dir w) = Some kP -> fs_is_dir (fs w) kP = true ->
  resolve (fs w) fp = Some ks -> ks <> [] -> fs_lookup ks (fs w) = Some (File d) ->
  fs_lookup (kP ++ [(name ++ ".json")%string])%list (fs w) <> Some Dir ->
  ks <> (kP ++ [(name ++ ".json")%string])%list ->
  let kt := (kP ++ [(name ++ ".json")%string])%list in
  let msg := ("Imported `" ++ fp ++ "' as `" ++ name ++ "'")%string in
  SvPresetFromFile_execute name fp w
  = (Val FINISHED,
     add_report ("INFO", msg) (add_log ("info", msg)
       (set_fs (fs_set kt (File d) (fs_set kt (File EmptyString) (fs w)))
          (add_event (FsOpen (preset_path w name) "wb") (add_event (FsOpen fp "rb")
             (add_event (FsExists (presets_dir w)) w)))))).
Proof.
  intros Hn Hfp Hc HrP HdP Hrs Hks Hls Hlt Hne kt msg.
  destruct (presets_dir_ok w) as [HP _].
  pose proof (preset_path_resolve w name kP HrP HdP Hc) as Hrt. fold kt in Hrt, Hlt, Hne.
  unfold SvPresetFromFile_execute, call.
  rewrite (eqb_empty_false _ Hn), (eqb_empty_false _ Hfp).
  rewrite (bind_val _ _ _ _ _ (get_preset_path_run name w (path_exists_of_dir _ _ _ HP HrP HdP))).
  cbv beta.
  pose proof (shutil_copy_run fp (preset_path w name) ks kt d
    (add_event (FsExists (presets_dir w)) w)) as Hcp.
  cbv zeta in Hcp. change (fs (add_event ?e w)) with (fs w) in Hcp.
  rewrite (isdir_file_target _ _ _ Hrt (app_single_nonempty _ _) Hlt) in Hcp.
  rewrite (bind_val _ _ _ _ _ (Hcp Hfp (preset_path_nonempty w name) Hrs Hks Hls
    Hrt (app_single_nonempty _ _) Hlt
    (eq_ind_r (fun l => fs_is_dir (fs w) l = true) HdP (removelast_app_single _ _))
    (not_eq_sym Hne))).
  reflexivity.
Qed.

Lemma copy_keeps_dirs f kt d :
  fs_lookup kt f <> Some Dir ->
  forall k, fs_is_dir (fs_set kt (File d) (fs_set kt (File EmptyString) f)) k = fs_is_dir f k.
Proof.
  intros Hd k. rewrite fs_is_dir_set_file by (rewrite fs_lookup_set, key_eqb_refl; discriminate).
  now apply fs_is_dir_set_file.
Qed.

Lemma copy_lookup_other f kt d d' k :
  k <> kt -> fs_lookup k (fs_set kt (File d) (fs_set kt (File d') f)) = fs_lookup k f.
Proof. intros H. now rewrite !fs_lookup_set, (key_eqb_false _ _ H). Qed.

Lemma copy_lookup_target f kt d d' :
  fs_lookup kt (fs_set kt (File d) (fs_set kt (File d') f)) = Some (File d).
Proof. now rewrite fs_lookup_set, key_eqb_refl. Qed.

(** X4. Exporting a preset.  Let the preset's name hold no '/', the presets
    directory exist with the preset's file in it, and the destination (the
    target path, or, when the target is an existing directory, the preset's
    file name inside it) resolve to an entry that is not a directory, whose
    parent directory exists and which is not the preset's own file.  Then
    [SvPresetToFile.execute] copies the preset's content to the destination;
    the preset itself and every other entry are unchanged, "Saved `name' as
    `filepath'" is reported and the result is FINISHED. *)
Theorem to_file_copies w name fp kP d kt :
  let dst := if os_path_isdir (fs w) fp then os_path_join fp (name ++ ".json") else fp in
  name <> EmptyString -> fp <> EmptyString -> has_char "/" name = false ->
  resolve (fs w) (presets_dir w) = Some kP -> fs_is_dir (fs w) kP = true ->
  fs_lookup (kP ++ [(name ++ ".json")%string])%list (fs w) = Some (File d) ->
  resolve (fs w) dst = Some kt -> kt <> [] -> fs_lookup kt (fs w) <> Some Dir ->
  fs_is_dir (fs w) (removelast kt) = true -> kt <> (kP ++ [(name ++ ".json")%string])%list ->
  let (r, w') := SvPresetToFile_execute name fp w in
  r = Val FINISHED
  /\ fs_lookup kt (fs w') = Some (File d)
  /\ (forall k, k <> kt -> fs_lookup k (fs w') = fs_lookup k (fs w))
  /\ reports w' = (reports w ++ [("INFO", ("Saved `" ++ name ++ "' as `" ++ fp ++ "'")%string)])%list.
Proof.
  intros dst Hn Hfp Hc HrP HdP Hl Hrt Hkt Hlt Hpar Hne.
  rewrite (to_file_run w name fp kP d dst kt Hn Hfp Hc HrP HdP Hl eq_refl Hrt Hkt Hlt Hpar Hne).
  split; [reflexivity|]. split; [apply copy_lookup_target|]. split; [|reflexivity].
  intros k Hk. apply copy_lookup_other, Hk.
Qed.

Lemma to_file_copies_witness :
  let w := ex_out_w in
  let kt := ["out"; "a.json"] in
  let (r, w') := SvPresetToFile_execute "a" "/out" w in
  r = Val FINISHED
  /\ fs_lookup kt (fs w') = Some (File "{}")
  /\ (forall k, k <> kt -> fs_lookup k (fs w') = fs_lookup k (fs w))
  /\ reports w' = (reports w ++ [("INFO", ("Saved `" ++ "a" ++ "' as `" ++ "/out" ++ "'")%string)])%list.
Proof.
  apply (to_file_copies ex_out_w "a" "/out" ["data"; "sverchok"; "presets"]);
    try discriminate; vm_compute; reflexivity.
Defined.

(** X5. Exporting a preset onto itself.  Whenever [get_preset_path] of the
    name returns a path [p] (in world [w1]) and the target, after the step
    into a target directory that [shutil.copy] takes, is the same file as
    [p] (for instance when the target is the presets directory),
    [SvPresetToFile.execute] raises shutil's SameFileError (an OSError)
    before opening anything: the world is exactly as [get_preset_path] left
    it, so nothing is written or reported. *)
Theorem to_file_same_file_raises w name fp p w1 :
  name <> EmptyString -> fp <> EmptyString ->
  get_preset_path name w = (Val p, w1) ->
  shutil_samefile (fs w1) p
    (if os_path_isdir (fs w1) fp then os_path_join fp (basename p) else fp) = true ->
  SvPresetToFile_execute name fp w = (Exc (OSError p), w1).
Proof.
  intros Hn Hfp Hp Hs.
  unfold SvPresetToFile_execute, call.
  rewrite (eqb_empty_false _ Hn), (eqb_empty_false _ Hfp).
  rewrite (bind_val _ _ _ _ _ Hp). cbv beta.
  rewrite (bind_exc _ _ _ _ _ (shutil_copy_same p fp w1 Hs)). reflexivity.
Qed.

Lemma to_file_same_file_raises_witness :
  let w1 := add_event (FsExists "/data/sverchok/presets") ex_w in
  get_preset_path "a" ex_w = (Val "/data/sverchok/presets/a.json", w1)
  /\ SvPresetToFile_execute "a" "/data/sverchok/presets" ex_w
     = (Exc (OSError "/data/sverchok/presets/a.json"), w1).
Proof.
  split; [vm_compute; reflexivity|].
  exact (to_file_same_file_raises ex_w "a" "/data/sverchok/presets"
           "/data/sverchok/presets/a.json" _ ltac:(discriminate) ltac:(discriminate)
           ltac:(vm_compute; reflexivity) ltac:(vm_compute; reflexivity)).
Defined.

(** X6. Importing a file as a preset.  Let the preset's name hold no '/',
    the presets directory exist with no directory at the preset's path, and
    the source be an existing file other than the preset's file.  Then
    [SvPresetFromFile.execute] copies the source file's content to the
    preset's file, replacing an existing preset of that name whatever its
    content; every other entry is unchanged and the result is FINISHED. *)
Theorem from_file_overwrites w name fp kP ks d :
  name <> EmptyString -> fp <> EmptyString -> has_char "/" name = false ->
  resolve (fs w) (presets_dir w) = Some kP -> fs_is_dir (fs w) kP = true ->
  resolve (fs w) fp = Some ks -> ks <> [] -> fs_lookup ks (fs w) = Some (File d) ->
  fs_lookup (kP ++ [(name ++ ".json")%string])%list (fs w) <> Some Dir ->
  ks <> (kP ++ [(name ++ ".json")%string])%list ->
  let kt := (kP ++ [(name ++ ".json")%string])%list in
  let (r, w') := SvPresetFromFile_execute name fp w in
  r = Val FINISHED
  /\ fs_lookup kt (fs w') = Some (File d)
  /\ (forall k, k <> kt -> fs_lookup k (fs w') = fs_lookup k (fs w)).
Proof.
  intros Hn Hfp Hc HrP HdP Hrs Hks Hls Hlt Hne kt.
  rewrite (from_file_run w name fp kP ks d Hn Hfp Hc HrP HdP Hrs Hks Hls Hlt Hne).
  split; [reflexivity|]. split; [apply copy_lookup_target|].
  intros k Hk. apply copy_lookup_other, Hk.
Qed.

Lemma from_file_overwrites_witness :
  let kt := ["data"; "sverchok"; "presets"; "a.json"] in
  let fp := "/data/sverchok/presets/a-b.json" in
  let (r, w') := SvPresetFromFile_execute "a" fp ex_w in
  r = Val FINISHED
  /\ fs_lookup kt (fs w') = Some (File "{1}")
  /\ (forall k, k <> kt -> fs_lookup k (fs w') = fs_lookup k (fs ex_w)).
Proof.
  apply (from_file_overwrites ex_w "a" "/data/sverchok/presets/a-b.json"
           ["data"; "sverchok"; "presets"] ["data"; "sverchok"; "presets"; "a-b.json"]);
    try discriminate; vm_compute; reflexivity.
Defined.

(** X7. Importing from a missing file.  When the presets directory exists
    and nothing is at the source path, [SvPresetFromFile.execute] raises
    when it opens the source, before the preset's file is opened: the file
    system is unchanged (an existing preset keeps its content) and nothing
    is reported. *)
Theorem from_file_missing_source_raises w name fp :
  name <> EmptyString -> fp <> EmptyString ->
  path_exists (fs w) (presets_dir w) = true -> path_exists (fs w) fp = false ->
  let (r, w') := SvPresetFromFile_execute name fp w in
  (exists e, r = Exc e) /\ fs w' = fs w /\ reports w' = reports w.
Proof.
  intros Hn Hfp H0 Hm.
  destruct (SvPresetFromFile_execute name fp w) as [r w'] eqn:E.
  unfold SvPresetFromFile_execute, call in E.
  rewrite (eqb_empty_false _ Hn), (eqb_empty_false _ Hfp) in E.
  rewrite (bind_val _ _ _ _ _ (get_preset_path_run name w H0)) in E. cbv beta in E.
  destruct (shutil_copy_missing_src fp (preset_path w name)
              (add_event (FsExists (presets_dir w)) w) Hm) as [e He].
  rewrite (bind_exc _ _ _ _ _ He) in E. injection E as <- <-.
  split; [eauto|split; reflexivity].
Qed.

Lemma from_file_missing_source_raises_witness :
  let (r, w') := SvPresetFromFile_execute "a" "/nope.json" ex_w in
  (exists e, r = Exc e) /\ fs w' = fs ex_w /\ reports w' = reports ex_w.
Proof.
  apply from_file_missing_source_raises; try discriminate; vm_compute; reflexivity.
Defined.

(** X3. The checks of the three file operators.  [SvDeletePreset],
    [SvPresetToFile] and [SvPresetFromFile] first refuse an empty preset
    name, then (the two file operators) an empty file path, each with its own
    message: the result is CANCELLED, the message is reported as an error,
    and neither the file system nor the events change. *)
Theorem file_ops_validation (w : world) (name fp : string) :
  let cancelled (msg : string) (rw : res op_result * world) :=
    fst rw = Val CANCELLED /\ reports (snd rw) = (reports w ++ [("ERROR", msg)])%list
    /\ fs (snd rw) = fs w /\ events (snd rw) = events w in
  (name = EmptyString ->
     cancelled "Preset name is not specified" (SvDeletePreset_execute name w)
     /\ cancelled "Preset name is not specified" (SvPresetToFile_execute name fp w)
     /\ cancelled "Preset name is not specified" (SvPresetFromFile_execute name fp w))
  /\ (name <> EmptyString -> fp = EmptyString ->
     cancelled "Target file path is not specified" (SvPresetToFile_execute name fp w)
     /\ cancelled "Source file path is not specified" (SvPresetFromFile_execute name fp w)).
Proof.
  intros cancelled. split.
  - intros ->. repeat split.
  - intros Hn ->. unfold cancelled, SvPresetToFile_execute, SvPresetFromFile_execute, call.
    rewrite (eqb_empty_false _ Hn). repeat split.
Qed.

(** X8. Export followed by import.  Let the names [n1] and [n2] hold no '/',
    the presets directory exist with [n1]'s file in it and no directory at
    [n2]'s path, and the file path [fp] resolve to an entry that is not a
    directory, whose parent directory exists, and which is neither [n1]'s
    nor [n2]'s file.  Exporting preset [n1] to [fp] and importing that file
    as preset [n2] leaves [n2] with the content [n1] had; both operators
    return FINISHED. *)
Theorem to_file_from_file_roundtrip w n1 n2 fp kP d kt :
  n1 <> EmptyString -> n2 <> EmptyString -> fp <> EmptyString ->
  has_char "/" n1 = false -> has_char "/" n2 = false ->
  resolve (fs w) (presets_dir w) = Some kP -> fs_is_dir (fs w) kP = true ->
  fs_lookup (kP ++ [(n1 ++ ".json")%string])%list (fs w) = Some (File d) ->
  fs_lookup (kP ++ [(n2 ++ ".json")%string])%list (fs w) <> Some Dir ->
  resolve (fs w) fp = Some kt -> kt <> [] -> fs_lookup kt (fs w) <> Some Dir ->
  fs_is_dir (fs w) (removelast kt) = true ->
  kt <> (kP ++ [(n1 ++ ".json")%string])%list -> kt <> (kP ++ [(n2 ++ ".json")%string])%list ->
  let (r1, w1) := SvPresetToFile_execute n1 fp w in
  let (r2, w2) := SvPresetFromFile_execute n2 fp w1 in
  r1 = Val FINISHED /\ r2 = Val FINISHED
  /\ fs_lookup (kP ++ [(n2 ++ ".json")%string])%list (fs w2) = Some (File d).
Proof.
  intros Hn1 Hn2 Hfp Hc1 Hc2 HrP HdP Hl1 Hl2 Hrt Hkt Hlt Hpar Hne1 Hne2.
  pose proof (isdir_file_target _ _ _ Hrt Hkt Hlt) as Hnd.
  assert (Hdst : (if os_path_isdir (fs w) fp then os_path_join fp (n1 ++ ".json") else fp) = fp)
    by now rewrite Hnd.
  rewrite (to_file_run w n1 fp kP d fp kt Hn1 Hfp Hc1 HrP HdP Hl1 Hdst Hrt Hkt Hlt Hpar Hne1).
  set (f1 := fs_set kt (File d) (fs_set kt (File EmptyString) (fs w))).
  match goal with |- context [SvPresetFromFile_execute n2 fp ?W] => set (W1 := W) end.
  assert (Hf1 : fs W1 = f1) by reflexivity.
  assert (HP1 : presets_dir W1 = presets_dir w) by reflexivity.
  assert (Hdirs : forall k, fs_is_dir f1 k = fs_is_dir (fs w) k) by (apply copy_keeps_dirs, Hlt).
  assert (HrP1 : resolve (fs W1) (presets_dir W1) = Some kP)
    by (rewrite Hf1, HP1, (resolve_same_dirs (fs w) f1 _ Hdirs); exact HrP).
  assert (HdP1 : fs_is_dir (fs W1) kP = true) by (rewrite Hf1, Hdirs; exact HdP).
  assert (Hrt1 : resolve (fs W1) fp = Some kt)
    by (rewrite Hf1, (resolve_same_dirs (fs w) f1 _ Hdirs); exact Hrt).
  assert (Hl1' : fs_lookup kt (fs W1) = Some (File d)) by apply copy_lookup_target.
  assert (Hl2' : fs_lookup (kP ++ [(n2 ++ ".json")%string])%list (fs W1) <> Some Dir)
    by (rewrite Hf1; unfold f1; rewrite copy_lookup_other; auto).
  rewrite (from_file_run W1 n2 fp kP kt d Hn2 Hfp Hc2 HrP1 HdP1 Hrt1 Hkt Hl1' Hl2' Hne2).
  split; [reflexivity|]. split; [reflexivity|]. apply copy_lookup_target.
Qed.

Lemma to_file_from_file_roundtrip_witness :
  let w := ex_out_w in
  let (r1, w1) := SvPresetToFile_execute "a-b" "/out/x.json" w in
  let (r2, w2) := SvPresetFromFile_execute "c" "/out/x.json" w1 in
  r1 = Val FINISHED /\ r2 = Val FINISHED
  /\ fs_lookup ["data"; "sverchok"; "presets"; "c.json"] (fs w2) = Some (File "{1}").
Proof.
  apply (to_file_from_file_roundtrip ex_out_w "a-b" "c" "/out/x.json"
           ["data"; "sverchok"; "presets"] "{1}" ["out"; "x.json"]);
    try discriminate; vm_compute; reflexivity.
Defined.



(** X10. Reading the preset is outside the [try] of [SvPresetToGist].  When
    opening, reading or decoding the preset raises, [execute] raises the same
    exception, with the world as the reading left it: no upload is attempted
    and the [finally] clause's FINISHED is never reached. *)
Theorem to_gist_read_error_escapes w name e w1 :
  name <> EmptyString -> to_gist_read_body name w = (Exc e, w1) ->
  SvPresetToGist_execute name w = (Exc e, w1).
Proof.
  intros Hn H. unfold SvPresetToGist_execute, call. rewrite (eqb_empty_false _ Hn).
  cbv zeta. now rewrite (bind_exc _ _ _ _ _ H).
Qed.

Lemma to_gist_read_error_escapes_witness :
  let p := preset_path ex_w "zz" in
  let w1 := add_event (FsOpen p "rb") (add_event (FsExists (presets_dir ex_w)) ex_w) in
  to_gist_read_body "zz" ex_w = (Exc (FileNotFoundError p), w1)
  /\ SvPresetToGist_execute "zz" ex_w = (Exc (FileNotFoundError p), w1).
Proof.
  cbv zeta. assert (H : to_gist_read_body "zz" ex_w
    = (Exc (FileNotFoundError (preset_path ex_w "zz")),
       add_event (FsOpen (preset_path ex_w "zz") "rb") (add_event (FsExists (presets_dir ex_w)) ex_w)))
    by (vm_compute; reflexivity).
  split; [exact H|]. apply to_gist_read_error_escapes; [discriminate|exact H].
Defined.

(** ** Names of the listed presets *)


Lemma rfind_none c s : has_char c s = false -> rfind_char c s = None.
Proof.
  induction s as [|a s IH]; cbn; [reflexivity|].
  intros H. apply orb_false_iff in H as [H1 H2]. now rewrite (IH H2), H1.
Qed.

Lemma rfind_last c X Y :
  has_char c Y = false -> rfind_char c (X ++ String c Y) = Some (String.length X).
Proof.
  intros HY. induction X as [|a X IH]; cbn [append rfind_char String.length].
  - now rewrite (rfind_none _ _ HY), Ascii.eqb_refl.
  - now rewrite IH.
Qed.

Lemma substring_prefix X Y : substring 0 (String.length X) (X ++ Y) = X.
Proof. induction X as [|a X IH]; cbn; [now destruct Y|now rewrite IH]. Qed.

Lemma splitext_json X :
  X <> EmptyString -> starts_with_char "." X = false -> has_char "/" X = false ->
  fst (splitext (X ++ ".json")) = X.
Proof.
  intros Hne Hd Hs. unfold splitext.
  rewrite (rfind_none "/" (X ++ ".json")) by (rewrite has_char_app, Hs; reflexivity).
  change ".json" with (String "." "json"). rewrite rfind_last by reflexivity.
  rewrite Nat.sub_0_r, substring_prefix.
  destruct X as [|a X]; [congruence|]. cbn in Hd. cbn [all_char]. rewrite Hd. reflexivity.
Qed.

Lemma stem_join_json P X :
  P <> EmptyString -> ends_with "/" P = false ->
  X <> EmptyString -> starts_with_char "." X = false -> has_char "/" X = false ->
  stem (os_path_join P (X ++ ".json")) = X.
Proof.
  intros HP He Hne Hd Hs. unfold stem.
  assert (Hs' : starts_with_char "/" (X ++ ".json") = false).
  { destruct X as [|a X]; [congruence|]. cbn in Hs |- *. now apply orb_false_iff in Hs as [-> _]. }
  unfold os_path_join. rewrite Hs', (eqb_empty_false _ HP), He. cbn [orb].
  change ("/" ++ (X ++ ".json")) with (String "/" (X ++ ".json")).
  rewrite basename_app_slash by (rewrite has_char_app, Hs; reflexivity).
  now apply splitext_json.
Qed.

Lemma get_preset_paths_run w :
  has_magic (presets_dir w) = false -> path_exists (fs w) (presets_dir w) = true ->
  get_preset_paths w
  = (Val (py_sorted (map (os_path_join (presets_dir w))
                         (filter (fnmatch "*.json")
                            (filter (fun x => negb (is_hidden x))
                               (dir_listing (fs w) (presets_dir w)))))),
     add_event (FsListdir (presets_dir w)) (add_event (FsExists (presets_dir w)) w)).
Proof.
  intros Hm H0. destruct (get_presets_directory_cases w) as (w1 & _ & _ & _ & Hx).
  destruct (Hx H0) as [-> Hc]. unfold get_preset_paths. rewrite (bind_val _ _ _ _ _ Hc).
  cbv beta. unfold glob. rewrite split_presets_pattern, Hm. reflexivity.
Qed.



(** ** The listing of a directory *)

Lemma in_children f kP nm :
  In nm (fs_children f kP) <-> exists e, In ((kP ++ [nm])%list, e) f.
Proof.
  unfold fs_children. rewrite in_flat_map. split.
  - intros ([k' e] & Hin & Hnm). cbn [fst] in Hnm.
    destruct k' as [|c k'']; [destruct Hnm|].
    destruct (key_eqb (removelast (c :: k'')) kP) eqn:E; [|destruct Hnm].
    destruct Hnm as [<-|[]]. apply key_eqb_true in E.
    exists e. rewrite <- E, <- app_removelast_last by discriminate. exact Hin.
  - intros [e Hin]. exists ((kP ++ [nm])%list, e). split; [exact Hin|]. cbn [fst].
    destruct (kP ++ [nm])%list as [|c k''] eqn:Ek; [now apply app_single_nonempty in Ek|].
    rewrite <- Ek, removelast_app_single, key_eqb_refl, last_last. now left.
Qed.

Lemma fs_is_dir_remove_file f k d k' :
  fs_lookup k f = Some (File d) -> fs_is_dir (fs_remove k f) k' = fs_is_dir f k'.
Proof.
  intros Hk. destruct k' as [|c k']; [reflexivity|]. cbn [fs_is_dir].
  rewrite fs_lookup_remove. destruct (key_eqb (c :: k') k) eqn:E; [|reflexivity].
  apply key_eqb_true in E. rewrite E, Hk. reflexivity.
Qed.

Lemma delete_run w name kP d :
  name <> EmptyString -> has_char "/" name = false ->
  resolve (fs w) (presets_dir w) = Some kP -> fs_is_dir (fs w) kP = true ->
  fs_lookup (kP ++ [(name ++ ".json")%string])%list (fs w) = Some (File d) ->
  SvDeletePreset_execute name w
  = (Val FINISHED,
     add_report ("INFO", ("Removed `" ++ name ++ "'")%string)
       (add_log ("info", ("Removed `" ++ preset_path w name ++ "'")%string)
          (set_fs (fs_remove (kP ++ [(name ++ ".json")%string])%list (fs w))
             (add_event (FsRemove (preset_path w name))
                (add_event (FsExists (presets_dir w)) w))))).
Proof.
  intros Hn Hc HrP HdP Hl. destruct (presets_dir_ok w) as [HP _].
  unfold SvDeletePreset_execute, call. rewrite (eqb_empty_false _ Hn).
  rewrite (bind_val _ _ _ _ _ (get_preset_path_run name w (path_exists_of_dir _ _ _ HP HrP HdP))).
  cbv beta.
  rewrite (bind_val _ _ _ _ _
    (os_remove_file _ _ d (add_event (FsExists (presets_dir w)) w)
       (preset_path_nonempty w name) (preset_path_resolve w name kP HrP HdP Hc)
       (app_single_nonempty _ _) Hl)).
  reflexivity.
Qed.

(** X12. A deleted preset leaves the listing.  After [SvDeletePreset.execute]
    removes a preset, the listing of the presets directory (what
    [get_preset_paths] globs) is the old listing without the preset's file
    name: that name is gone, every other name stays. *)
Theorem delete_preset_unlisted w name kP d :
  name <> EmptyString -> has_char "/" name = false ->
  resolve (fs w) (presets_dir w) = Some kP -> fs_is_dir (fs w) kP = true ->
  fs_lookup (kP ++ [(name ++ ".json")%string])%list (fs w) = Some (File d) ->
  let (r, w') := SvDeletePreset_execute name w in
  r = Val FINISHED
  /\ forall nm, In nm (dir_listing (fs w') (presets_dir w))
                <-> In nm (dir_listing (fs w) (presets_dir w)) /\ nm <> name ++ ".json".
Proof.
  intros Hn Hc HrP HdP Hl. rewrite (delete_run w name kP d Hn Hc HrP HdP Hl).
  split; [reflexivity|]. intros nm. cbn [fs add_report add_log set_fs add_event].
  set (k := (kP ++ [(name ++ ".json")%string])%list) in *.
  assert (Hdirs : forall k', fs_is_dir (fs_remove k (fs w)) k' = fs_is_dir (fs w) k')
    by (intros k'; exact (fs_is_dir_remove_file _ _ _ _ Hl)).
  unfold dir_listing. rewrite (resolve_same_dirs (fs w) _ _ Hdirs), HrP, Hdirs, HdP.
  rewrite !in_children. unfold fs_remove. split.
  - intros [e He]. apply filter_In in He as [He Hk]. split; [eauto|].
    intros ->. cbn [fst] in Hk. now rewrite key_eqb_refl in Hk.
  - intros [[e He] Hne]. exists e. apply filter_In. split; [exact He|].
    cbn [fst]. apply negb_true_iff, key_eqb_false. unfold k. intros Heq.
    apply app_inj_tail in Heq as [_ Heq]. congruence.
Qed.

Lemma delete_preset_unlisted_witness :
  let (r, w') := SvDeletePreset_execute "a" ex_w in
  r = Val FINISHED
  /\ forall nm, In nm (dir_listing (fs w') (presets_dir ex_w))
                <-> In nm (dir_listing (fs ex_w) (presets_dir ex_w)) /\ nm <> "a" ++ ".json".
Proof.
  apply (delete_preset_unlisted ex_w "a" ["data"; "sverchok"; "presets"] "{}");
    try discriminate; vm_compute; reflexivity.
Defined.

(** ** Saved presets in the listing *)

Lemma save_selected_run w id_tree name ng kP :
  id_tree <> EmptyString -> name <> EmptyString -> has_char "/" name = false ->
  find_group w id_tree = Some ng -> existsb select ng = true ->
  resolve (fs w) (presets_dir w) = Some kP -> fs_is_dir (fs w) kP = true ->
  fs_lookup (kP ++ [(name ++ ".json")%string])%list (fs w) <> Some Dir ->
  let k := (kP ++ [(name ++ ".json")%string])%list in
  exists w', SvSaveSelected_execute id_tree name w = (Val FINISHED, w')
    /\ fs w' = fs_set k (File (json_dumps_sorted w (create_dict_of_tree_selected w ng)))
                 (fs_set k (File EmptyString) (fs w))
    /\ datafiles_dir w' = datafiles_dir w.
Proof.
  intros Hi Hn Hc Hg Hs HrP HdP Hd k. destruct (presets_dir_ok w) as [HP _].
  unfold SvSaveSelected_execute, call.
  rewrite (eqb_empty_false _ Hi), (eqb_empty_false _ Hn).
  unfold find_group in Hg.
  destruct (find (fun kv => String.eqb (fst kv) id_tree) (node_groups w))
    as [[g ng']|] eqn:Ef; [|discriminate].
  injection Hg as Hg. subst ng'.
  assert (Eg : node_groups_getitem id_tree w = (Val ng, w))
    by (unfold node_groups_getitem; now rewrite Ef).
  rewrite (bind_val _ _ _ _ _ Eg). cbv beta zeta.
  rewrite (existsb_filter_length _ _ Hs).
  rewrite (bind_val _ _ _ _ _ (eq_refl : create_dict_of_tree ng w = (Val _, w))). cbv beta.
  rewrite (bind_val _ _ _ _ _ (get_preset_path_run name w (path_exists_of_dir _ _ _ HP HrP HdP))).
  cbv beta.
  rewrite (bind_val _ _ _ _ _
             (write_json_run (create_dict_of_tree_selected w ng) _ k
                (add_event (FsExists (presets_dir w)) w)
                (preset_path_nonempty w name) (preset_path_resolve w name kP HrP HdP Hc)
                (app_single_nonempty _ _) Hd
                (eq_ind_r (fun l => fs_is_dir (fs w) l = true) HdP (removelast_app_single _ _)))).
  eexists. split; [reflexivity|]. split; reflexivity.
Qed.

Lemma str_app_inv_head P s1 s2 : P ++ s1 = P ++ s2 -> s1 = s2.
Proof. induction P as [|a P IH]; cbn; [auto|]. intros H. injection H. exact IH. Qed.

Lemma join_plain P nm :
  P <> EmptyString -> ends_with "/" P = false -> starts_with_char "/" nm = false ->
  os_path_join P nm = P ++ "/" ++ nm.
Proof. intros HP He Hs. unfold os_path_join. now rewrite Hs, (eqb_empty_false _ HP), He. Qed.

Lemma json_name_listed f kP name d :
  In (name ++ ".json") (fs_children (fs_set (kP ++ [(name ++ ".json")%string])%list (File d)
                          (fs_set (kP ++ [(name ++ ".json")%string])%list (File EmptyString) f)) kP).
Proof. apply in_children. exists (File d). now left. Qed.

(** X13. A saved preset shows up under its name.  After [SvSaveSelected]
    saves a preset (the presets directory already exists, its path names no
    glob metacharacter, and no directory is at the preset's path), the next
    [get_presets()] lists a preset whose name is the saved name and whose path
    is its [get_preset_path], provided the name does not start with "."
    and holds no '/'. *)
Theorem saved_preset_listed w id_tree name ng kP :
  id_tree <> EmptyString -> name <> EmptyString -> has_char "/" name = false ->
  starts_with_char "." name = false -> has_magic (presets_dir w) = false ->
  find_group w id_tree = Some ng -> existsb select ng = true ->
  resolve (fs w) (presets_dir w) = Some kP -> fs_is_dir (fs w) kP = true ->
  fs_lookup (kP ++ [(name ++ ".json")%string])%list (fs w) <> Some Dir ->
  let (r, w1) := SvSaveSelected_execute id_tree name w in
  r = Val FINISHED
  /\ exists os, fst (get_presets w1) = Val os
       /\ exists o, In o os /\ obs_name o = Some name /\ obs_path w o = Some (preset_path w name).
Proof.
  intros Hi Hn Hc Hdot Hm Hg Hs HrP HdP Hd.
  destruct (save_selected_run w id_tree name ng kP Hi Hn Hc Hg Hs HrP HdP Hd)
    as (w1 & -> & Hf & Hdd).
  destruct (presets_dir_ok w) as [HP He].
  assert (HPw : presets_dir w1 = presets_dir w) by (unfold presets_dir; now rewrite Hdd).
  set (k := (kP ++ [(name ++ ".json")%string])%list) in *.
  assert (Hdirs : forall k', fs_is_dir (fs w1) k' = fs_is_dir (fs w) k')
    by (rewrite Hf; apply copy_keeps_dirs, Hd).
  assert (HrP1 : resolve (fs w1) (presets_dir w1) = Some kP)
    by (rewrite HPw, (resolve_same_dirs (fs w) (fs w1) _ Hdirs); exact HrP).
  assert (HdP1 : fs_is_dir (fs w1) kP = true) by (rewrite Hdirs; exact HdP).
  assert (Hm1 : has_magic (presets_dir w1) = false) by (rewrite HPw; exact Hm).
  assert (HP1 : presets_dir w1 <> EmptyString) by (rewrite HPw; exact HP).
  split; [reflexivity|].
  unfold get_presets, bind at 1.
  rewrite (get_preset_paths_run w1 Hm1 (path_exists_of_dir _ _ _ HP1 HrP1 HdP1)).
  rewrite get_presets_loop_run. eexists. split; [reflexivity|].
  exists (mk_preset None (Some (preset_path w name))). split.
  - apply (in_map (fun p => mk_preset None (Some p))).
    apply (Permutation_in _ (StrSort.Permuted_sort _)). rewrite HPw. unfold preset_path. apply in_map. apply filter_In. split.
    + apply filter_In. split.
      * unfold dir_listing. rewrite <- HPw, HrP1, HdP1, Hf. apply json_name_listed.
      * destruct name as [|a name]; [congruence|]. cbn in Hdot |- *. now rewrite Hdot.
    + rewrite fnmatch_star_json. apply ends_with_app.
  - cbn [obs_name obs_path _name _path option_map]. unfold preset_path.
    assert (Hne : name <> EmptyString) by exact Hn.
    now rewrite (stem_join_json _ _ HP He Hne Hdot Hc).
Qed.

Lemma saved_preset_listed_witness :
  let (r, w1) := SvSaveSelected_execute "NodeTree" "c" ex_w in
  r = Val FINISHED
  /\ exists os, fst (get_presets w1) = Val os
       /\ exists o, In o os /\ obs_name o = Some "c" /\ obs_path ex_w o = Some (preset_path ex_w "c").
Proof.
  apply (saved_preset_listed ex_w "NodeTree" "c" [mk_node "Box" true; mk_node "Viewer" false]
           ["data"; "sverchok"; "presets"]);
    try discriminate; vm_compute; reflexivity.
Defined.

Lemma children_copy_cases f k0 kP nm d d' :
  In nm (fs_children (fs_set k0 (File d) (fs_set k0 (File d') f)) kP) ->
  (kP ++ [nm])%list = k0 \/ In nm (fs_children f kP).
Proof.
  rewrite !in_children. intros [e He]. cbn [fs_set In] in He.
  destruct He as [He|He]; [injection He; auto|].
  unfold fs_remove in He. apply filter_In in He as [He _]. cbn [In] in He.
  destruct He as [He|He]; [injection He; auto|].
  apply filter_In in He as [He _]. right. eauto.
Qed.

(** In any state where the presets directory exists (and names no glob
    metacharacter) and the names in it hold no '/', the listing does not
    hold the path of a name starting with "." and holding no '/'. *)
Lemma hidden_preset_not_listed w name ps :
  has_char "/" name = false -> starts_with_char "." name = true ->
  has_magic (presets_dir w) = false -> path_exists (fs w) (presets_dir w) = true ->
  Forall (fun nm => has_char "/" nm = false) (dir_listing (fs w) (presets_dir w)) ->
  fst (get_preset_paths w) = Val ps -> ~ In (preset_path w name) ps.
Proof.
  intros Hc Hdot Hm H0 Hall Hps Hin.
  destruct (presets_dir_ok w) as [HP He].
  rewrite (get_preset_paths_run w Hm H0) in Hps. cbn [fst] in Hps. injection Hps as <-.
  apply (Permutation_in _ (Permutation_sym (StrSort.Permuted_sort _))) in Hin.
  apply in_map_iff in Hin as (nm & Heq & Hnm).
  apply filter_In in Hnm as [Hnm _]. apply filter_In in Hnm as [Hnm Hh].
  assert (Hs' : starts_with_char "/" nm = false).
  { rewrite Forall_forall in Hall. pose proof (Hall nm Hnm) as Hnm'.
    destruct nm as [|a nm]; [reflexivity|].
    cbn in Hnm' |- *. now apply orb_false_iff in Hnm' as [-> _]. }
  assert (Hj : starts_with_char "/" (name ++ ".json") = false).
  { destruct name as [|a name]; [discriminate|]. cbn in Hc |- *.
    now apply orb_false_iff in Hc as [-> _]. }
  unfold preset_path in Heq. rewrite !join_plain in Heq by assumption.
  apply str_app_inv_head in Heq. injection Heq as ->.
  destruct name as [|a name]; [discriminate|]. cbn in Hdot, Hh. rewrite Hdot in Hh. discriminate.
Qed.

(** X14. A preset saved under a name starting with "." is never listed.
    [SvSaveSelected] accepts such a name (holding no '/'), and when the
    presets directory exists and the preset's file can be opened there it
    writes that file and returns FINISHED.  But glob skips hidden names: in
    the state right after the save and in any later state (any world with
    the same data files directory) where the presets directory exists, names
    no glob metacharacter and holds only names without '/',
    [get_preset_paths()] does not return the preset's path, so the panel
    never shows it. *)
Theorem saved_hidden_preset_unlisted w id_tree name ng kP :
  id_tree <> EmptyString -> name <> EmptyString -> has_char "/" name = false ->
  starts_with_char "." name = true ->
  find_group w id_tree = Some ng -> existsb select ng = true ->
  resolve (fs w) (presets_dir w) = Some kP -> fs_is_dir (fs w) kP = true ->
  fs_lookup (kP ++ [(name ++ ".json")%string])%list (fs w) <> Some Dir ->
  let (r, w1) := SvSaveSelected_execute id_tree name w in
  r = Val FINISHED
  /\ path_exists (fs w1) (preset_path w name) = true
  /\ datafiles_dir w1 = datafiles_dir w
  /\ forall w2, datafiles_dir w2 = datafiles_dir w ->
     has_magic (presets_dir w2) = false -> path_exists (fs w2) (presets_dir w2) = true ->
     Forall (fun nm => has_char "/" nm = false) (dir_listing (fs w2) (presets_dir w2)) ->
     forall ps, fst (get_preset_paths w2) = Val ps -> ~ In (preset_path w name) ps.
Proof.
  intros Hi Hn Hc Hdot Hg Hs HrP HdP Hd.
  destruct (save_selected_run w id_tree name ng kP Hi Hn Hc Hg Hs HrP HdP Hd)
    as (w1 & -> & Hf & Hdd).
  set (k := (kP ++ [(name ++ ".json")%string])%list) in *.
  assert (Hdirs : forall k', fs_is_dir (fs w1) k' = fs_is_dir (fs w) k')
    by (rewrite Hf; apply copy_keeps_dirs, Hd).
  split; [reflexivity|]. split.
  - apply (path_exists_of_file _ _ k (json_dumps_sorted w (create_dict_of_tree_selected w ng))).
    + apply preset_path_nonempty.
    + rewrite (resolve_same_dirs (fs w) (fs w1) _ Hdirs). exact (preset_path_resolve w name kP HrP HdP Hc).
    + rewrite Hf. apply copy_lookup_target.
  - split; [exact Hdd|].
    intros w2 Hd2 Hm H0 Hall ps Hps.
    assert (Hpp : preset_path w name = preset_path w2 name)
      by (unfold preset_path, presets_dir; now rewrite Hd2).
    rewrite Hpp. exact (hidden_preset_not_listed w2 name ps Hc Hdot Hm H0 Hall Hps).
Qed.

Lemma saved_hidden_preset_unlisted_witness :
  let (r, w1) := SvSaveSelected_execute "NodeTree" ".c" ex_w in
  r = Val FINISHED
  /\ path_exists (fs w1) (preset_path ex_w ".c") = true
  /\ datafiles_dir w1 = datafiles_dir ex_w
  /\ forall w2, datafiles_dir w2 = datafiles_dir ex_w ->
     has_magic (presets_dir w2) = false -> path_exists (fs w2) (presets_dir w2) = true ->
     Forall (fun nm => has_char "/" nm = false) (dir_listing (fs w2) (presets_dir w2)) ->
     forall ps, fst (get_preset_paths w2) = Val ps -> ~ In (preset_path ex_w ".c") ps.
Proof.
  exact (saved_hidden_preset_unlisted ex_w "NodeTree" ".c" [mk_node "Box" true; mk_node "Viewer" false]
           ["data"; "sverchok"; "presets"] ltac:(discriminate) ltac:(discriminate)
           ltac:(vm_compute; reflexivity) ltac:(vm_compute; reflexivity)
           ltac:(vm_compute; reflexivity) ltac:(vm_compute; reflexivity)
           ltac:(vm_compute; reflexivity) ltac:(vm_compute; reflexivity)
           ltac:(vm_compute; discriminate)).
Defined.

(** ** [draw_presets_ops] *)






(** X16. [draw_presets_ops] without a tree.  With neither [id_tree] nor a
    context, and no preset list, [draw_presets_ops] first lists the presets
    ([get_presets], with its directory check, possible creation and
    listing), keeping the world that listing leaves; then it raises without
    adding anything to the layout: its own Exception when the listing
    succeeds, the listing's exception when that raises. *)
Theorem draw_presets_ops_no_tree l w :
  let (r, s) := draw_presets_ops None None None (l, w) in
  fst s = l /\ snd s = snd (get_preset_paths w)
  /\ (forall ps, fst (get_preset_paths w) = Val ps ->
      r = Exc (Exception "Either id_tree or context must be provided for draw_presets_ops()"))
  /\ (forall e, fst (get_preset_paths w) = Exc e -> r = Exc e).
Proof.
  unfold draw_presets_ops, bind at 1, lift_w, get_presets, bind at 1.
  destruct (get_preset_paths w) as [[ps|x|e] w1]; cbn [fst snd].
  - rewrite get_presets_loop_run. cbn.
    split; [reflexivity|]. split; [reflexivity|].
    split; [reflexivity|]. intros e He. discriminate.
  - cbn. split; [reflexivity|]. split; [reflexivity|]. split; intros ? H; discriminate.
  - cbn. split; [reflexivity|]. split; [reflexivity|].
    split; [intros ? H; discriminate|]. intros e' He. now injection He as ->.
Qed.

Lemma draw_presets_ops_no_tree_witness :
  let (r, s) := draw_presets_ops None None None ([], ex_list_w) in
  fst s = [] /\ snd s = snd (get_preset_paths ex_list_w)
  /\ (forall ps, fst (get_preset_paths ex_list_w) = Val ps ->
      r = Exc (Exception "Either id_tree or context must be provided for draw_presets_ops()"))
  /\ (forall e, fst (get_preset_paths ex_list_w) = Exc e -> r = Exc e).
Proof. exact (draw_presets_ops_no_tree [] ex_list_w). Defined.
